(** * Authentication and authorization gateway (auth.py), custom mode

    A shallow embedding of [auth.py]: the [authenticate] and [authorize]
    handlers registered when [AUTH_TYPE] is ["custom"] (and, for reference,
    the two handlers of the ["noop"] mode), together with the properties
    of the specification that concern them.

    Conventions of the embedding.
    - A Python [str] is the list of its code points ([pystr]); a Python
      [bytes] object is a list of [Byte.byte].
    - A Python [dict] is a [gmap]; JSON-like values are [pyval].
    - [raise] is the [Raise] constructor of [result]; the exception classes
      that the code raises or lets escape are the constructors of [exn].
    - [os.getenv] reads a finite map from names to values ([environ]).
    - Logging has no influence on results and is left out. *)

From Stdlib Require Import ZArith NArith Lia Strings.Ascii Strings.String Strings.Byte DecimalString.
From stdpp Require Import base decidable countable option list gmap fin_maps.

Local Open Scope N_scope.
#[local] Set Warnings "-register-all".

(** ** Python strings and bytes *)

(** A [str] value: the sequence of its Unicode code points. *)
Definition pystr : Type := list N.

(** A [bytes] value. *)
Definition pybytes : Type := list byte.

#[global] Instance byte_eq_dec : EqDecision byte.
Proof.
  intros a b. destruct (decide (Byte.to_N a = Byte.to_N b)) as [E | E].
  - left. apply (f_equal Byte.of_N) in E. rewrite !Byte.of_to_N in E. congruence.
  - right. congruence.
Defined.

#[global] Instance byte_countable : Countable byte :=
  inj_countable Byte.to_N Byte.of_N Byte.of_to_N.

(** The code points of an ASCII literal of the source text. *)
Definition lit (s : string) : pystr :=
  List.map N_of_ascii (list_ascii_of_string s).
Arguments lit s%_string.

(** The bytes of a [b"..."] literal of the source text. *)
Definition blit (s : string) : pybytes :=
  List.map byte_of_ascii (list_ascii_of_string s).
Arguments blit s%_string.

(** [s.startswith(p)] *)
Fixpoint startswith (p s : pystr) : bool :=
  match p, s with
  | [], _ => true
  | _ :: _, [] => false
  | a :: p', b :: s' => (a =? b) && startswith p' s'
  end.

(** [sub in s], for a non-empty or empty [sub]. *)
Fixpoint contains (sub s : pystr) : bool :=
  startswith sub s ||
  match s with
  | [] => false
  | _ :: s' => contains sub s'
  end.

(** [s.replace(old, new)]: every non-overlapping occurrence of [old], found
    from left to right, is replaced.  [skip] counts the characters of a
    matched occurrence that are still to be passed over. *)
Fixpoint replace_from (old new : pystr) (skip : nat) (s : pystr) : pystr :=
  match s with
  | [] =>
      match skip, old with
      | O, [] => new
      | _, _ => []
      end
  | c :: s' =>
      match skip with
      | S k => replace_from old new k s'
      | O =>
          if startswith old s
          then match old with
               | [] => new ++ c :: replace_from old new 0 s'
               | _ :: old' => new ++ replace_from old new (length old') s'
               end
          else c :: replace_from old new 0 s'
      end
  end.

Definition replace (old new s : pystr) : pystr := replace_from old new 0 s.

(** [s.split(sep, 1)] for a non-empty separator: the text before the first
    occurrence of [sep] and the text after it, or [s] alone when [sep] does
    not occur. *)
Fixpoint split1 (sep s : pystr) : list pystr :=
  if startswith sep s then [ []; drop (length sep) s ]
  else match s with
       | [] => [ [] ]
       | c :: s' =>
           match split1 sep s' with
           | h :: t => (c :: h) :: t
           | [] => [ [c] ]
           end
       end.

(** [l[-1]] on a list of strings (the lists indexed in the source are never
    empty; the empty string stands for the [IndexError] case). *)
Definition last_item (l : list pystr) : pystr := List.last l [].

(** ASCII case folding; [str.lower] agrees with it on ASCII text. *)
Definition ascii_lower (c : N) : N :=
  if (65 <=? c) && (c <=? 90) then c + 32 else c.

Definition is_ascii (s : pystr) : bool := forallb (fun c => c <? 128) s.

(** ** UTF-8 ([bytes.decode('utf-8')] and [str.encode('utf-8')]) *)

Definition byte_of_N (n : N) : byte := default x00 (Byte.of_N n).

Definition is_continuation (n : N) : bool := (128 <=? n) && (n <? 192).

Definition is_surrogate (c : N) : bool := (0xD800 <=? c) && (c <? 0xE000).

(** Strict decoding: over-long forms, surrogates, code points above
    U+10FFFF and truncated sequences are rejected ([None] stands for
    [UnicodeDecodeError]). *)
Fixpoint utf8_decode (bs : pybytes) : option pystr :=
  match bs with
  | [] => Some []
  | b0 :: r0 =>
      let n0 := Byte.to_N b0 in
      if n0 <? 0x80 then cons n0 <$> utf8_decode r0
      else if n0 <? 0xC2 then None
      else if n0 <? 0xE0 then
        match r0 with
        | b1 :: r1 =>
            let n1 := Byte.to_N b1 in
            if is_continuation n1
            then cons ((n0 - 0xC0) * 64 + (n1 - 0x80)) <$> utf8_decode r1
            else None
        | _ => None
        end
      else if n0 <? 0xF0 then
        match r0 with
        | b1 :: b2 :: r2 =>
            let n1 := Byte.to_N b1 in
            let n2 := Byte.to_N b2 in
            let c := (n0 - 0xE0) * 4096 + (n1 - 0x80) * 64 + (n2 - 0x80) in
            if is_continuation n1 && is_continuation n2
               && (0x800 <=? c) && negb (is_surrogate c)
            then cons c <$> utf8_decode r2
            else None
        | _ => None
        end
      else if n0 <? 0xF5 then
        match r0 with
        | b1 :: b2 :: b3 :: r3 =>
            let n1 := Byte.to_N b1 in
            let n2 := Byte.to_N b2 in
            let n3 := Byte.to_N b3 in
            let c := (n0 - 0xF0) * 262144 + (n1 - 0x80) * 4096
                     + (n2 - 0x80) * 64 + (n3 - 0x80) in
            if is_continuation n1 && is_continuation n2 && is_continuation n3
               && (0x10000 <=? c) && (c <? 0x110000)
            then cons c <$> utf8_decode r3
            else None
        | _ => None
        end
      else None
  end.

(** The encoding of one code point; [None] for a surrogate or a value that
    is not a code point ([UnicodeEncodeError]). *)
Definition utf8_encode_cp (c : N) : option pybytes :=
  if c <? 0x80 then Some [byte_of_N c]
  else if c <? 0x800 then
    Some [byte_of_N (0xC0 + c / 64); byte_of_N (0x80 + c mod 64)]
  else if c <? 0x10000 then
    if is_surrogate c then None
    else Some [byte_of_N (0xE0 + c / 4096);
               byte_of_N (0x80 + (c / 64) mod 64);
               byte_of_N (0x80 + c mod 64)]
  else if c <? 0x110000 then
    Some [byte_of_N (0xF0 + c / 262144);
          byte_of_N (0x80 + (c / 4096) mod 64);
          byte_of_N (0x80 + (c / 64) mod 64);
          byte_of_N (0x80 + c mod 64)]
  else None.

Fixpoint utf8_encode (s : pystr) : option pybytes :=
  match s with
  | [] => Some []
  | c :: s' =>
      match utf8_encode_cp c, utf8_encode s' with
      | Some b, Some bs => Some (b ++ bs)
      | _, _ => None
      end
  end.

(** ** Python values, exceptions and results *)

(** JSON-like values: what a decoded token payload and an operation payload
    ([Dict[str, Any]]) hold.  Floating-point numbers are not represented. *)
Inductive pyval : Type :=
| PNone
| PBool (b : bool)
| PInt (z : Z)
| PStr (s : pystr)
| PList (l : list pyval)
| PDict (d : gmap pystr pyval).

(** A [dict] with string keys. *)
Abbreviation pydict := (gmap pystr pyval).

(** Truth value of an object, as tested by [not], [or] and [if]. *)
Definition truthy (v : pyval) : bool :=
  match v with
  | PNone => false
  | PBool b => b
  | PInt z => negb (z =? 0)%Z
  | PStr s => match s with [] => false | _ => true end
  | PList l => match l with [] => false | _ => true end
  | PDict d => match map_to_list d with [] => false | _ => true end
  end.

(** [a or b] *)
Definition py_or (a b : pyval) : pyval := if truthy a then a else b.

(** [d.get(k)]: [None] when the key is absent. *)
Definition dict_get (d : pydict) (k : pystr) : pyval := default PNone (d !! k).

(** [d.setdefault(k, v)]: the value found or stored, and the dictionary
    afterwards. *)
Definition setdefault (d : pydict) (k : pystr) (v : pyval) : pyval * pydict :=
  match d !! k with
  | Some x => (x, d)
  | None => (v, <[k := v]> d)
  end.

(** [d.update(other)]: the entries of [other] are written into [d]. *)
Definition dict_update (d other : pydict) : pydict := other ∪ d.

(** The exception classes that occur; all derive from [Exception].
    [InvalidTokenError] stands for [jwt.InvalidTokenError] and its subclasses
    other than [jwt.ExpiredSignatureError], [OtherException] for any class
    not listed. *)
Inductive exn : Type :=
| HTTPException (status_code : Z) (detail : pystr)
| ExpiredSignatureError
| InvalidTokenError
| UnicodeDecodeError
| AttributeError
| ValueError (message : pystr)
| OtherException.

Inductive result (A : Type) : Type :=
| Ok (a : A)
| Raise (e : exn).
Arguments Ok {A} a.
Arguments Raise {A} e.

(** Sequencing: an exception raised by the first computation propagates. *)
#[global] Instance result_bind : MBind result := fun A B k r =>
  match r with
  | Ok a => k a
  | Raise e => Raise e
  end.

(** ** Request headers and the process environment *)

(** Header names and header values come as text or as raw bytes. *)
Inductive hkey : Type := KStr (s : pystr) | KBytes (b : pybytes).
Inductive hval : Type := HStr (s : pystr) | HBytes (b : pybytes).

#[global] Instance hkey_eq_dec : EqDecision hkey.
Proof. solve_decision. Defined.

#[global] Instance hkey_countable : Countable hkey :=
  inj_countable'
    (fun k => match k with KStr s => inl s | KBytes b => inr b end)
    (fun x => match x with inl s => KStr s | inr b => KBytes b end)
    (fun k => match k with KStr _ => eq_refl | KBytes _ => eq_refl end).

Abbreviation headers_t := (gmap hkey hval).

(** [os.environ] *)
Abbreviation environ := (gmap pystr pystr).

(** [os.getenv(k, d)] *)
Definition getenv_or (env : environ) (k d : pystr) : pystr := default d (env !! k).

(** ** Library functions outside the repository *)

(** [jwt.decode(token, key, algorithms=["HS256"])] of PyJWT, the case mapping
    of [str.lower] on text that is not ASCII, and the rendering by [str] of
    lists and dictionaries are not part of the repository: the handlers are
    defined over any implementation of them. *)
Class Externals : Type := {
  jwt_decode : pystr -> pystr -> result pydict;
  lower_ext : pystr -> pystr;
  repr_ext : pyval -> pystr
}.

Section WithExternals.
Context {ext : Externals}.

(** [s.lower()] *)
Definition py_lower (s : pystr) : pystr :=
  if is_ascii s then List.map ascii_lower s else lower_ext s.

(** [str(v)] *)
Definition py_str (v : pyval) : pystr :=
  match v with
  | PStr s => s
  | PInt z => lit (NilZero.string_of_int (Z.to_int z))
  | PBool true => lit "True"
  | PBool false => lit "False"
  | PNone => lit "None"
  | _ => repr_ext v
  end.

(** ** The handlers of the custom mode *)

(** [JWT_SECRET = os.getenv("SECRET_KEY", "mock-secret-key-for-migrations")],
    read when the module is loaded. *)
Definition JWT_SECRET (env : environ) : pystr :=
  getenv_or env (lit "SECRET_KEY") (lit "mock-secret-key-for-migrations").

(** [os.getenv("ALLOW_ANONYMOUS", "false").lower() == "true"] *)
Definition allow_anonymous (env : environ) : bool :=
  bool_decide (py_lower (getenv_or env (lit "ALLOW_ANONYMOUS") (lit "false")) = lit "true").

(** [os.getenv("NODE_ENV") == "development"] *)
Definition development (env : environ) : bool :=
  bool_decide (env !! lit "NODE_ENV" = Some (lit "development")).

(** Truth value of the result of [headers.get(k)]; [None] is Python's
    [None]. *)
Definition header_truthy (a : option hval) : bool :=
  match a with
  | None => false
  | Some (HStr s) => match s with [] => false | _ => true end
  | Some (HBytes b) => match b with [] => false | _ => true end
  end.

Definition header_or (a b : option hval) : option hval :=
  if header_truthy a then a else b.

(** Lines 64-69: the first of the four lookups that is not falsy, else the
    last one. *)
Definition get_authorization (headers : headers_t) : option hval :=
  header_or (headers !! KStr (lit "authorization"))
    (header_or (headers !! KStr (lit "Authorization"))
       (header_or (headers !! KBytes (blit "authorization"))
          (headers !! KBytes (blit "Authorization")))).

(** Lines 72-73: a [bytes] value is decoded; the decoding error is not
    caught by the handler. *)
Definition decode_authorization (a : option hval) : result (option pystr) :=
  match a with
  | Some (HBytes b) =>
      match utf8_decode b with
      | Some s => Ok (Some s)
      | None => Raise UnicodeDecodeError
      end
  | Some (HStr s) => Ok (Some s)
  | None => Ok None
  end.

(** Lines 76-87: no usable authorization header. *)
Definition missing_authorization (env : environ) : result pydict :=
  if allow_anonymous env
  then Ok {[ lit "identity" := PStr (lit "anonymous");
             lit "display_name" := PStr (lit "Anonymous User");
             lit "is_authenticated" := PBool false ]}
  else Raise (HTTPException 401 (lit "Authorization header required")).

(** Line 99: the condition of the development shortcut. *)
Definition is_dev_token (token : pystr) : bool :=
  startswith (lit "anonymous") token || startswith (lit "noop-") token.

(** Line 100 *)
Definition dev_user_id (token : pystr) : pystr :=
  if contains (lit "-") token
  then last_item (split1 (lit "-") token)
  else lit "anonymous".

(** Lines 101-105 *)
Definition dev_identity (user_id : pystr) : pydict :=
  {[ lit "identity" := PStr user_id;
     lit "display_name" := PStr (lit "Dev User (" ++ user_id ++ lit ")");
     lit "is_authenticated" := PBool true ]}.

(** Lines 108-120: the signing secret is empty. *)
Definition secret_not_configured (env : environ) : result pydict :=
  if development env
  then Ok {[ lit "identity" := PStr (lit "dev-user");
             lit "display_name" := PStr (lit "Development User");
             lit "is_authenticated" := PBool true ]}
  else Raise (HTTPException 500 (lit "Authentication not properly configured")).

(** Lines 156-169: the identity built from a verified payload. *)
Definition verified_identity (payload : pydict) (user_id email name : pyval) : pydict :=
  {[ lit "identity" := PStr (py_str user_id);
     lit "display_name" := py_or name (py_or email (PStr (py_str user_id)));
     lit "email" := email;
     lit "is_authenticated" := PBool true;
     lit "permissions" := PList [PStr (lit "read"); PStr (lit "write")];
     lit "metadata" :=
       PDict {[ lit "provider" := dict_get payload (lit "provider");
                lit "org_id" := dict_get payload (lit "orgId");
                lit "company_id" := dict_get payload (lit "companyId");
                lit "family_id" := dict_get payload (lit "familyId") ]} ]}.

(** Lines 123-169: the body of the [try] statement.  The decoding without
    verification of lines 128-132 only feeds the log and swallows its own
    exceptions, so it does not appear. *)
Definition verify_body (env : environ) (token : pystr) : result pydict :=
  payload ← jwt_decode token (JWT_SECRET env);
  let user_id := py_or (dict_get payload (lit "user_id"))
                   (py_or (dict_get payload (lit "sub")) (dict_get payload (lit "id"))) in
  let email := dict_get payload (lit "email") in
  let name := py_or (dict_get payload (lit "name")) (dict_get payload (lit "username")) in
  if negb (truthy user_id)
  then Raise (HTTPException 401 (lit "Invalid token: missing user identity"))
  else Ok (verified_identity payload user_id email name).

(** Lines 171-195: the [except] clauses of that [try] statement, in order. *)
Definition verify_handlers (env : environ) (r : result pydict) : result pydict :=
  match r with
  | Ok v => Ok v
  | Raise ExpiredSignatureError => Raise (HTTPException 401 (lit "Token expired"))
  | Raise InvalidTokenError =>
      if development env
      then Ok {[ lit "identity" := PStr (lit "dev-user-invalid-token");
                 lit "display_name" := PStr (lit "Dev User (Invalid Token)");
                 lit "is_authenticated" := PBool true ]}
      else Raise (HTTPException 401 (lit "Invalid authentication token"))
  | Raise _ => Raise (HTTPException 500 (lit "Authentication system error"))
  end.

Definition verify_token (env : environ) (token : pystr) : result pydict :=
  verify_handlers env (verify_body env token).

(** Lines 98-195: what is done with the token. *)
Definition authenticate_token (env : environ) (token : pystr) : result pydict :=
  if is_dev_token token then Ok (dev_identity (dev_user_id token))
  else if negb (truthy (PStr (JWT_SECRET env))) then secret_not_configured env
  else verify_token env token.

(** Lines 75-195: what is done with the text of the header. *)
Definition authenticate_header (env : environ) (authorization : option pystr) : result pydict :=
  match authorization with
  | None | Some [] => missing_authorization env
  | Some authorization =>
      if negb (startswith (lit "Bearer ") authorization)
      then Raise (HTTPException 401
                    (lit "Invalid authorization format. Expected 'Bearer <token>'"))
      else authenticate_token env (replace (lit "Bearer ") [] authorization)
  end.

(** Lines 57-195 *)
Definition authenticate (env : environ) (headers : headers_t) : result pydict :=
  authorization ← decode_authorization (get_authorization headers);
  authenticate_header env authorization.

End WithExternals.

(** [ctx.user.identity] *)
Record User : Type := { identity : pystr }.
Record AuthContext : Type := { user : User }.

(** Lines 204-221: the body of the [try] statement of [authorize]; the
    second component is the operation payload [value] afterwards, which the
    handler mutates in place.  A payload is a tree: its [metadata] dictionary
    is not shared with another entry. *)
Definition authorize_body (ctx : AuthContext) (value : pydict) : result pydict * pydict :=
  let user_id := identity (user ctx) in
  if negb (truthy (PStr user_id))
  then (Raise (HTTPException 401 (lit "Invalid user identity")), value)
  else
    let owner_filter : pydict := {[ lit "owner" := PStr user_id ]} in
    let '(metadata, value) := setdefault value (lit "metadata") (PDict ∅) in
    match metadata with
    | PDict m =>
        (Ok owner_filter, <[lit "metadata" := PDict (dict_update m owner_filter)]> value)
    | _ => (Raise AttributeError, value)
    end.

(** Lines 223-230: [HTTPException] is raised again as it is, any other
    exception becomes a 500 error. *)
Definition authorize_handlers (r : result pydict) : result pydict :=
  match r with
  | Ok f => Ok f
  | Raise (HTTPException c d) => Raise (HTTPException c d)
  | Raise _ => Raise (HTTPException 500 (lit "Authorization system error"))
  end.

(** Lines 198-230 *)
Definition authorize (ctx : AuthContext) (value : pydict) : result pydict * pydict :=
  let '(r, value) := authorize_body ctx value in (authorize_handlers r, value).

(** ** The handlers of the noop mode (lines 27-41) *)

Module Noop.

Definition authenticate (headers : headers_t) : result pydict :=
  Ok {[ lit "identity" := PStr (lit "anonymous");
        lit "display_name" := PStr (lit "Anonymous User");
        lit "is_authenticated" := PBool true ]}.

Definition authorize (ctx : AuthContext) (value : pydict) : result pydict * pydict :=
  (Ok ∅, value).

End Noop.

(** ** Vocabulary of the specification *)

(** The four spellings of the header name that line 64-69 look up. *)
Definition authorization_keys : list hkey :=
  [ KStr (lit "authorization"); KStr (lit "Authorization");
    KBytes (blit "authorization"); KBytes (blit "Authorization") ].

(** The header map has none of the four keys. *)
Definition no_authorization_key (headers : headers_t) : Prop :=
  forall k, k ∈ authorization_keys -> headers !! k = None.

(** Each of the four keys is absent or maps to the empty string or to the
    empty byte sequence. *)
Definition empty_authorization (headers : headers_t) : Prop :=
  forall k, k ∈ authorization_keys ->
    headers !! k = None \/ headers !! k = Some (HStr []) \/ headers !! k = Some (HBytes []).

(** The token that lines 90-96 hand to the rest of the handler, for a
    request whose authorization header has the bearer scheme. *)
Definition bearer_token (headers : headers_t) : option pystr :=
  match decode_authorization (get_authorization headers) with
  | Ok (Some a) =>
      if startswith (lit "Bearer ") a then Some (replace (lit "Bearer ") [] a) else None
  | _ => None
  end.

(** The request gets as far as [jwt.decode] on line 136. *)
Definition reaches_verification (env : environ) (headers : headers_t) (token : pystr) : Prop :=
  bearer_token headers = Some token /\ is_dev_token token = false /\ JWT_SECRET env <> [].

(** The payload has no [metadata] entry, or one that is a dictionary. *)
Definition metadata_is_mapping (value : pydict) : bool :=
  match value !! lit "metadata" with
  | None | Some (PDict _) => true
  | Some _ => false
  end.

(** The entries of the payload's metadata dictionary (none when there is no
    such dictionary). *)
Definition metadata_entries (value : pydict) : pydict :=
  match value !! lit "metadata" with
  | Some (PDict m) => m
  | _ => ∅
  end.

(** The first value of a list that is not falsy. *)
Fixpoint first_truthy (l : list pyval) : option pyval :=
  match l with
  | [] => None
  | v :: l' => if truthy v then Some v else first_truthy l'
  end.

(** A field of the identity that a handler returned. *)
Definition field (k : pystr) (r : result pydict) : option pyval :=
  match r with
  | Ok d => d !! k
  | Raise _ => None
  end.

(** ** A stand-in for the library functions

    Used to run the handlers on concrete requests.  It takes three token
    texts as correctly signed, with the payloads below, one as signed but
    expired, and rejects any other text as PyJWT rejects a text that is not
    a token. *)
Module Stub.

Definition payload_u1 : pydict := {[ lit "sub" := PStr (lit "u1") ]}.

Definition payload_bob : pydict :=
  {[ lit "sub" := PStr (lit "u1");
     lit "username" := PStr (lit "bob");
     lit "email" := PStr (lit "bob@example.org") ]}.

Definition payload_no_id : pydict := {[ lit "email" := PStr (lit "bob@example.org") ]}.

Definition decode (token key : pystr) : result pydict :=
  if bool_decide (token = lit "signed.u1") then Ok payload_u1
  else if bool_decide (token = lit "signed.bob") then Ok payload_bob
  else if bool_decide (token = lit "signed.no-id") then Ok payload_no_id
  else if bool_decide (token = lit "signed.expired") then Raise ExpiredSignatureError
  else Raise InvalidTokenError.

Definition externals : Externals :=
  {| jwt_decode := decode; lower_ext := fun s => s; repr_ext := fun _ => lit "?" |}.

(** A request with one text header. *)
Definition request (value : string) : headers_t :=
  {[ KStr (lit "authorization") := HStr (lit value) ]}.

Definition ctx_u1 : AuthContext := {| user := {| identity := lit "u1" |} |}.

End Stub.

(** ** The mode switch of the module (lines 22-24, 43-54, 232-236) *)

Inductive auth_mode : Type := ModeNoop | ModeCustom.

Section ModeSwitch.
Context {ext : Externals}.

(** [AUTH_TYPE = os.getenv("AUTH_TYPE", "noop").lower()] *)
Definition AUTH_TYPE (env : environ) : pystr :=
  py_lower (getenv_or env (lit "AUTH_TYPE") (lit "noop")).

(** Loading the module: the branch that registers the handlers, or the
    exception that ends the import.  [jwt_importable] tells whether
    [import jwt] succeeds; its [ImportError] is raised again by line 51 and
    is an [OtherException] here. *)
Definition load_auth (jwt_importable : bool) (env : environ) : result auth_mode :=
  if bool_decide (AUTH_TYPE env = lit "noop") then Ok ModeNoop
  else if bool_decide (AUTH_TYPE env = lit "custom") then
    if jwt_importable then Ok ModeCustom else Raise OtherException
  else Raise (ValueError (lit "Unknown AUTH_TYPE: " ++ AUTH_TYPE env
                          ++ lit ". Supported values: 'noop', 'custom'")).

(** The handlers that the loaded module has registered. *)
Definition registered_authenticate (mode : auth_mode) (env : environ)
    (headers : headers_t) : result pydict :=
  match mode with
  | ModeNoop => Noop.authenticate headers
  | ModeCustom => authenticate env headers
  end.

Definition registered_authorize (mode : auth_mode) (ctx : AuthContext)
    (value : pydict) : result pydict * pydict :=
  match mode with
  | ModeNoop => Noop.authorize ctx value
  | ModeCustom => authorize ctx value
  end.

End ModeSwitch.

(** The exceptions with which the custom [authenticate] can end. *)
Definition authenticate_failures : list exn :=
  [ UnicodeDecodeError;
    HTTPException 401 (lit "Authorization header required");
    HTTPException 401 (lit "Invalid authorization format. Expected 'Bearer <token>'");
    HTTPException 500 (lit "Authentication not properly configured");
    HTTPException 401 (lit "Token expired");
    HTTPException 401 (lit "Invalid authentication token");
    HTTPException 500 (lit "Authentication system error") ].

(** A value that [str] renders without the help of [repr]. *)
Definition is_scalar (v : pyval) : bool :=
  match v with
  | PList _ | PDict _ => false
  | _ => true
  end.

(** The identity of lines 79-83. *)
Definition anonymous_identity : pydict :=
  {[ lit "identity" := PStr (lit "anonymous");
     lit "display_name" := PStr (lit "Anonymous User");
     lit "is_authenticated" := PBool false ]}.

(** ** The Langfuse integration (observability/langfuse_enhanced.py)

    The construction of [LangfuseEnhanced], the module-level client and
    handler that its instances share, and the accessors built on them.
    [Client] and [Handler] are the objects that the langfuse package hands
    out; their classes define neither [__bool__] nor [__len__], so such an
    object is truthy and only [None] is falsy. *)
Module Langfuse.

Section WithLibrary.
Context {ext : Externals} {Client Handler : Type}.

(** What the langfuse package does when it is used during one construction:
    the two imports of lines 35-36, [get_client()], [client.auth_check()]
    and [CallbackHandler()]. *)
Record library : Type := {
  import_langfuse : result unit;
  get_client : result Client;
  auth_check : Client -> result bool;
  CallbackHandler : result Handler
}.

(** An instance of the class (lines 23-25). *)
Record LangfuseEnhanced : Type := {
  enabled : bool;
  client : option Client;
  handler : option Handler
}.

(** The module-level variables (lines 14-16 and 391). *)
Record module_state : Type := {
  LANGFUSE_LOGGING_ENABLED : bool;
  langfuse_client : option Client;
  langfuse_handler : option Handler;
  enhanced_instance : option LangfuseEnhanced
}.

(** The state after the module has been loaded. *)
Definition load (env : environ) : module_state :=
  {| LANGFUSE_LOGGING_ENABLED :=
       bool_decide (py_lower (getenv_or env (lit "LANGFUSE_LOGGING") (lit "false"))
                    = lit "true");
     langfuse_client := None;
     langfuse_handler := None;
     enhanced_instance := None |}.

(** [self.enabled = False] *)
Definition disable (self : LangfuseEnhanced) : LangfuseEnhanced :=
  {| enabled := false; client := client self; handler := handler self |}.

(** [not os.getenv(var)] *)
Definition unset (env : environ) (var : pystr) : bool :=
  match env !! var with
  | None | Some [] => true
  | Some _ => false
  end.

(** Lines 39-40 *)
Definition required_vars : list pystr :=
  [ lit "LANGFUSE_PUBLIC_KEY"; lit "LANGFUSE_SECRET_KEY" ].

Definition missing_vars (env : environ) : list pystr :=
  List.filter (unset env) required_vars.

(** Lines 51-62.  The Boolean tells whether the method goes on; it does not
    when [get_client] or [auth_check] raises (the handlers of lines 72-80)
    or when the check fails (lines 55-60).  The module variable is assigned
    before the check. *)
Definition ensure_client (lib : library) (g : module_state) : bool * module_state :=
  match langfuse_client g with
  | Some _ => (true, g)
  | None =>
      match get_client lib with
      | Raise _ => (false, g)
      | Ok c =>
          let g1 := {| LANGFUSE_LOGGING_ENABLED := LANGFUSE_LOGGING_ENABLED g;
                       langfuse_client := Some c;
                       langfuse_handler := langfuse_handler g;
                       enhanced_instance := enhanced_instance g |} in
          match auth_check lib c with
          | Ok true => (true, g1)
          | Ok false | Raise _ => (false, g1)
          end
      end
  end.

(** Lines 65-67 *)
Definition ensure_handler (lib : library) (g : module_state) : bool * module_state :=
  match langfuse_handler g with
  | Some _ => (true, g)
  | None =>
      match CallbackHandler lib with
      | Raise _ => (false, g)
      | Ok h =>
          (true, {| LANGFUSE_LOGGING_ENABLED := LANGFUSE_LOGGING_ENABLED g;
                    langfuse_client := langfuse_client g;
                    langfuse_handler := Some h;
                    enhanced_instance := enhanced_instance g |})
      end
  end.

(** Lines 30-80: the instance and the module variables afterwards. *)
Definition _initialize (lib : library) (env : environ) (self : LangfuseEnhanced)
    (g : module_state) : LangfuseEnhanced * module_state :=
  match import_langfuse lib with
  | Raise _ => (disable self, g)
  | Ok _ =>
      match missing_vars env with
      | _ :: _ => (disable self, g)
      | [] =>
          let '(go_on, g) := ensure_client lib g in
          if negb go_on then (disable self, g)
          else
            let '(go_on, g) := ensure_handler lib g in
            if negb go_on then (disable self, g)
            else ({| enabled := enabled self;
                     client := langfuse_client g;
                     handler := langfuse_handler g |}, g)
      end
  end.

(** Lines 22-28 *)
Definition __init__ (lib : library) (env : environ) (g : module_state)
    : LangfuseEnhanced * module_state :=
  let self := {| enabled := LANGFUSE_LOGGING_ENABLED g; client := None; handler := None |} in
  if enabled self then _initialize lib env self g else (self, g).

(** Lines 82-96; the argument [metadata] is not used. *)
Definition get_callbacks (self : LangfuseEnhanced) (metadata : option pydict)
    : list Handler :=
  match enabled self, handler self with
  | true, Some h => [h]
  | _, _ => []
  end.

(** Lines 394-399 *)
Definition get_enhanced_langfuse (lib : library) (env : environ) (g : module_state)
    : LangfuseEnhanced * module_state :=
  match enhanced_instance g with
  | Some instance => (instance, g)
  | None =>
      let '(instance, g) := __init__ lib env g in
      (instance, {| LANGFUSE_LOGGING_ENABLED := LANGFUSE_LOGGING_ENABLED g;
                    langfuse_client := langfuse_client g;
                    langfuse_handler := langfuse_handler g;
                    enhanced_instance := Some instance |})
  end.

(** Lines 403-414 *)
Definition get_tracing_callbacks (lib : library) (env : environ) (g : module_state)
    (metadata : option pydict) : list Handler * module_state :=
  let '(instance, g) := get_enhanced_langfuse lib env g in
  (get_callbacks instance metadata, g).

End WithLibrary.

Arguments library : clear implicits.
Arguments LangfuseEnhanced : clear implicits.
Arguments module_state : clear implicits.

End Langfuse.

(** A langfuse package whose objects are numbered, for concrete runs: the
    client is accepted when [accepted] is true. *)
Definition sample_library (accepted : bool) : Langfuse.library nat nat :=
  {| Langfuse.import_langfuse := Ok tt;
     Langfuse.get_client := Ok 1%nat;
     Langfuse.auth_check := fun _ => Ok accepted;
     Langfuse.CallbackHandler := Ok 2%nat |}.

Definition sample_environ : environ :=
  {[ lit "LANGFUSE_LOGGING" := lit "true";
     lit "LANGFUSE_PUBLIC_KEY" := lit "pk";
     lit "LANGFUSE_SECRET_KEY" := lit "sk" ]}.

(** ** Evaluation on concrete inputs *)

Example startswith_ex : startswith (lit "Bearer ") (lit "Bearer abc") = true.
Proof. reflexivity. Qed.

Example replace_ex :
  replace (lit "Bearer ") [] (lit "Bearer noop-Bearer x") = lit "noop-x".
Proof. reflexivity. Qed.

Example split1_ex : last_item (split1 (lit "-") (lit "noop-team-42")) = lit "team-42".
Proof. reflexivity. Qed.

Example utf8_encode_ex :
  utf8_encode [0x24; 0xA3; 0x20AC; 0x10348]
  = Some [x24; xc2; xa3; xe2; x82; xac; xf0; x90; x8d; x88].
Proof. reflexivity. Qed.

Example utf8_decode_ex :
  utf8_decode [x24; xc2; xa3; xe2; x82; xac; xf0; x90; x8d; x88]
  = Some [0x24; 0xA3; 0x20AC; 0x10348].
Proof. reflexivity. Qed.

Example utf8_decode_overlong : utf8_decode [xc0; x80] = None.
Proof. reflexivity. Qed.

Example utf8_decode_surrogate : utf8_decode [xed; xa0; x80] = None.
Proof. reflexivity. Qed.

(** ** UTF-8 and string lemmas *)

Lemma to_N_byte_of_N (n : N) : n < 256 -> Byte.to_N (byte_of_N n) = n.
Proof.
  intros Hn. unfold byte_of_N.
  destruct (Byte.of_N n) as [b|] eqn:E.
  - simpl. by apply Byte.to_of_N.
  - apply Byte.of_N_None_iff in E. lia.
Qed.

(** [lia] is given the equations of the divisions by constants. *)
Ltac Zify.zify_post_hook ::= Z.to_euclidean_division_equations.

(** Settles the range tests of the decoder by arithmetic. *)
Ltac decide_tests :=
  repeat match goal with
    | |- context [N.ltb ?a ?b] =>
        destruct (N.ltb_spec a b); [ try (exfalso; lia) | try (exfalso; lia) ]
    | |- context [N.leb ?a ?b] =>
        destruct (N.leb_spec a b); [ try (exfalso; lia) | try (exfalso; lia) ]
    end.

Lemma utf8_decode_encode_cp (c : N) (bs r : pybytes) :
  utf8_encode_cp c = Some bs ->
  utf8_decode (bs ++ r) = cons c <$> utf8_decode r.
Proof.
  unfold utf8_encode_cp, is_surrogate.
  destruct (N.ltb_spec c 0x80).
  { intros [= <-]. cbn [app utf8_decode].
    rewrite to_N_byte_of_N by lia. decide_tests. done. }
  destruct (N.ltb_spec c 0x800).
  { intros [= <-]. cbn [app utf8_decode].
    rewrite !to_N_byte_of_N by lia. unfold is_continuation. decide_tests.
    cbn [andb]. do 2 f_equal. lia. }
  destruct (N.ltb_spec c 0x10000).
  { destruct (N.leb_spec 0xD800 c); destruct (N.ltb_spec c 0xE000); cbn [andb]; try done.
    all: intros [= <-]; cbn [app utf8_decode].
    all: rewrite !to_N_byte_of_N by lia; unfold is_continuation, is_surrogate.
    all: decide_tests; cbn [andb negb]; do 2 f_equal; lia. }
  destruct (N.ltb_spec c 0x110000); [|done].
  intros [= <-]; cbn [app utf8_decode].
  rewrite !to_N_byte_of_N by lia; unfold is_continuation.
  decide_tests; cbn [andb negb]; do 2 f_equal; lia.
Qed.

Lemma utf8_decode_encode (s : pystr) (b : pybytes) :
  utf8_encode s = Some b -> utf8_decode b = Some s.
Proof.
  revert b. induction s as [|c s IH]; intros b; cbn [utf8_encode].
  - by intros [= <-].
  - destruct (utf8_encode_cp c) as [bc|] eqn:Ec; [|done].
    destruct (utf8_encode s) as [bs|]; [|done].
    intros [= <-]. rewrite (utf8_decode_encode_cp _ _ _ Ec), (IH bs eq_refl). done.
Qed.

Lemma startswith_app (p s : pystr) : startswith p (p ++ s) = true.
Proof. induction p as [|a p IH]; [done|]. cbn. by rewrite N.eqb_refl. Qed.

Lemma startswith_inv (p s : pystr) :
  startswith p s = true -> s = p ++ drop (length p) s.
Proof.
  revert s. induction p as [|a p IH]; intros s; [done|].
  destruct s as [|b s]; [done|]. cbn.
  intros [Hab Hp]%andb_true_iff. apply N.eqb_eq in Hab as ->.
  f_equal. by apply IH.
Qed.

Lemma replace_from_skip (old new t s : pystr) :
  replace_from old new (length t) (t ++ s) = replace_from old new 0 s.
Proof. induction t as [|c t IH]; [done|]. exact IH. Qed.

Lemma replace_prefix (old new s : pystr) :
  old <> [] -> replace old new (old ++ s) = new ++ replace old new s.
Proof.
  destruct old as [|a old]; [done|]. intros _. unfold replace.
  change ((a :: old) ++ s) with (a :: (old ++ s)).
  cbn [replace_from].
  change (a :: (old ++ s)) with ((a :: old) ++ s).
  rewrite startswith_app. by rewrite replace_from_skip.
Qed.

Lemma replace_absent (old new s : pystr) :
  old <> [] -> contains old s = false -> replace old new s = s.
Proof.
  intros Hold. unfold replace. induction s as [|c s IH].
  - by destruct old.
  - cbn [contains]. intros [H1 H2]%orb_false_iff.
    cbn [replace_from]. rewrite H1. f_equal. by apply IH.
Qed.

Lemma contains_char (d : N) (s : pystr) : contains [d] s = true <-> d ∈ s.
Proof.
  induction s as [|c s IH].
  - cbn. split; [done|]. by intros ?%elem_of_nil.
  - cbn [contains startswith]. rewrite orb_true_iff, andb_true_r, N.eqb_eq, IH.
    rewrite elem_of_cons. done.
Qed.

Lemma split1_char (d : N) (a b : pystr) :
  d ∉ a -> split1 [d] (a ++ d :: b) = [a; b].
Proof.
  induction a as [|c a IH]; intros Hd.
  - cbn. by rewrite N.eqb_refl.
  - apply not_elem_of_cons in Hd as [Hdc Hd].
    change ((c :: a) ++ d :: b) with (c :: (a ++ d :: b)).
    cbn [split1 startswith]. rewrite (proj2 (N.eqb_neq d c) Hdc). cbn [andb].
    by rewrite IH.
Qed.

(** ** Lemmas on the handlers *)

(** Case analysis on a member of [authorization_keys]. *)
Ltac split_keys H :=
  unfold authorization_keys in H;
  repeat (apply elem_of_cons in H as [-> | H]);
  [ .. | by apply elem_of_nil in H ].

Section Lemmas.
Context {ext : Externals}.
Implicit Types (env : environ) (headers : headers_t).

Lemma forall_keys (P : hkey -> Prop) :
  (forall k, k ∈ authorization_keys -> P k) <->
  P (KStr (lit "authorization")) /\ P (KStr (lit "Authorization"))
  /\ P (KBytes (blit "authorization")) /\ P (KBytes (blit "Authorization")).
Proof.
  unfold authorization_keys. rewrite <- Forall_forall, !Forall_cons, Forall_nil. tauto.
Qed.

Lemma get_authorization_none headers :
  no_authorization_key headers -> get_authorization headers = None.
Proof.
  intros (H1 & H2 & H3 & H4)%forall_keys. unfold get_authorization.
  by rewrite H1, H2, H3, H4.
Qed.

Lemma empty_authorization_header env headers :
  empty_authorization headers ->
  authenticate env headers = missing_authorization env.
Proof.
  intros (H1 & H2 & H3 & H4)%forall_keys. unfold authenticate, get_authorization.
  destruct H1 as [-> | [-> | ->]], H2 as [-> | [-> | ->]],
    H3 as [-> | [-> | ->]], H4 as [-> | [-> | ->]]; reflexivity.
Qed.

Lemma single_header env headers k v :
  no_authorization_key headers -> k ∈ authorization_keys ->
  authenticate env (<[k := v]> headers)
  = decode_authorization (Some v) ≫= authenticate_header env.
Proof.
  intros Hno Hk.
  assert (forall k', k' ∈ authorization_keys -> k' <> k ->
            <[k := v]> headers !! k' = None) as Hother.
  { intros k' Hk' Hne. rewrite lookup_insert_ne by done. by apply Hno. }
  unfold authenticate, get_authorization.
  split_keys Hk; rewrite lookup_insert_eq.
  all: rewrite !Hother by
    first [ by unfold authorization_keys; repeat constructor | by vm_compute ].
  all: destruct v as [[|??]|[|??]]; reflexivity.
Qed.
Lemma bearer_nonempty : lit "Bearer " <> [].
Proof. discriminate. Qed.

Lemma authenticate_header_bearer env a :
  startswith (lit "Bearer ") a = true ->
  authenticate_header env (Some a)
  = authenticate_token env (replace (lit "Bearer ") [] a).
Proof.
  intros Ha. destruct a as [|c a]; [discriminate|].
  unfold authenticate_header. by rewrite Ha.
Qed.

Lemma authenticate_header_malformed env a :
  a <> [] -> startswith (lit "Bearer ") a = false ->
  authenticate_header env (Some a)
  = Raise (HTTPException 401
             (lit "Invalid authorization format. Expected 'Bearer <token>'")).
Proof.
  intros Hne Ha. destruct a as [|c a]; [done|].
  unfold authenticate_header. by rewrite Ha.
Qed.

Lemma authenticate_bearer_token env headers token :
  bearer_token headers = Some token ->
  authenticate env headers = authenticate_token env token.
Proof.
  unfold bearer_token, authenticate.
  destruct (decode_authorization (get_authorization headers)) as [[a|]|]; try done.
  destruct (startswith (lit "Bearer ") a) eqn:Ha; [|done].
  intros [= <-]. by apply authenticate_header_bearer.
Qed.

Lemma bearer_token_prefix headers token :
  decode_authorization (get_authorization headers) = Ok (Some (lit "Bearer " ++ token)) ->
  bearer_token headers = Some (replace (lit "Bearer ") [] token).
Proof.
  intros H. unfold bearer_token. rewrite H, startswith_app.
  by rewrite (replace_prefix _ _ _ bearer_nonempty).
Qed.

(** In general the token is what remains of the text after the prefix once
    every occurrence of "Bearer " in it has been removed. *)
Lemma bearer_token_remainder headers a :
  decode_authorization (get_authorization headers) = Ok (Some a) ->
  startswith (lit "Bearer ") a = true ->
  bearer_token headers
  = Some (replace (lit "Bearer ") [] (drop (length (lit "Bearer ")) a)).
Proof.
  intros H Ha. rewrite (startswith_inv _ _ Ha) in H.
  by apply bearer_token_prefix.
Qed.

Lemma allow_anonymous_unset env :
  env !! lit "ALLOW_ANONYMOUS" = None -> allow_anonymous env = false.
Proof. intros H. unfold allow_anonymous, getenv_or. rewrite H. by vm_compute. Qed.

Lemma allow_anonymous_true env :
  env !! lit "ALLOW_ANONYMOUS" = Some (lit "true") -> allow_anonymous env = true.
Proof. intros H. unfold allow_anonymous, getenv_or. rewrite H. by vm_compute. Qed.

Lemma no_key_empty headers : no_authorization_key headers -> empty_authorization headers.
Proof. intros H k Hk. left. by apply H. Qed.

End Lemmas.

(** ** The properties of the specification *)

(** C4. When the header map has none of the four authorization keys, the
    custom authenticator takes the missing-header branch: with
    [ALLOW_ANONYMOUS] not enabled (in particular when the variable is unset)
    it fails with 401 "Authorization header required"; with
    [ALLOW_ANONYMOUS] enabled it succeeds with the identity "anonymous" whose
    [is_authenticated] is false. *)
Theorem missing_header_branch {ext : Externals} (env : environ) (headers : headers_t) :
  no_authorization_key headers ->
  (allow_anonymous env = false ->
   authenticate env headers
   = Raise (HTTPException 401 (lit "Authorization header required")))
  /\ (env !! lit "ALLOW_ANONYMOUS" = None -> allow_anonymous env = false)
  /\ (allow_anonymous env = true ->
      field (lit "identity") (authenticate env headers) = Some (PStr (lit "anonymous"))
      /\ field (lit "is_authenticated") (authenticate env headers) = Some (PBool false)).
Proof.
  intros Hno. rewrite (empty_authorization_header env headers (no_key_empty _ Hno)).
  unfold missing_authorization. split_and!.
  - by intros ->.
  - apply allow_anonymous_unset.
  - intros ->. split; by vm_compute.
Qed.

Lemma missing_header_branch_witness :
  authenticate (ext := Stub.externals) ∅ ∅
  = Raise (HTTPException 401 (lit "Authorization header required")).
Proof.
  destruct (missing_header_branch (ext := Stub.externals) ∅ ∅) as [H _].
  - intros k _. apply lookup_empty.
  - apply H. reflexivity.
Defined.

(** C10. A header map in which every authorization key that is present maps
    to the empty string or to the empty byte sequence is handled as a map
    without any authorization key: the result is that of the missing-header
    branch (the anonymous identity when [ALLOW_ANONYMOUS] is enabled, 401
    "Authorization header required" otherwise) and it is never the
    invalid-format error. *)
Theorem empty_header_is_missing {ext : Externals} (env : environ) (headers : headers_t) :
  empty_authorization headers ->
  authenticate env headers = missing_authorization env
  /\ (forall headers', no_authorization_key headers' ->
      authenticate env headers = authenticate env headers')
  /\ authenticate env headers
     <> Raise (HTTPException 401
                (lit "Invalid authorization format. Expected 'Bearer <token>'"))
  /\ (allow_anonymous env = true ->
      field (lit "identity") (authenticate env headers) = Some (PStr (lit "anonymous"))
      /\ field (lit "is_authenticated") (authenticate env headers) = Some (PBool false))
  /\ (allow_anonymous env = false ->
      authenticate env headers
      = Raise (HTTPException 401 (lit "Authorization header required"))).
Proof.
  intros He. rewrite (empty_authorization_header env headers He). split_and!.
  - done.
  - intros h' Hno. by rewrite (empty_authorization_header env h' (no_key_empty _ Hno)).
  - unfold missing_authorization. by destruct (allow_anonymous env).
  - unfold missing_authorization. intros ->. split; by vm_compute.
  - unfold missing_authorization. by intros ->.
Qed.

Section TokenLemmas.
Context {ext : Externals}.
Implicit Types (env : environ) (headers : headers_t) (token : pystr).

Lemma authenticate_token_dev env token :
  is_dev_token token = true ->
  authenticate_token env token = Ok (dev_identity (dev_user_id token)).
Proof. intros H. unfold authenticate_token. by rewrite H. Qed.

Lemma authenticate_token_no_secret env token :
  is_dev_token token = false -> JWT_SECRET env = [] ->
  authenticate_token env token = secret_not_configured env.
Proof. intros H Hs. unfold authenticate_token. by rewrite H, Hs. Qed.

Lemma authenticate_token_verify env token :
  is_dev_token token = false -> JWT_SECRET env <> [] ->
  authenticate_token env token = verify_token env token.
Proof.
  intros H Hs. unfold authenticate_token. rewrite H.
  by destruct (JWT_SECRET env).
Qed.

Lemma JWT_SECRET_empty env :
  JWT_SECRET env = [] <-> env !! lit "SECRET_KEY" = Some [].
Proof.
  unfold JWT_SECRET, getenv_or.
  destruct (env !! lit "SECRET_KEY") as [s|]; simpl; [|split; discriminate].
  split; [by intros -> | by intros [= ->]].
Qed.

Lemma JWT_SECRET_unset env :
  env !! lit "SECRET_KEY" = None ->
  JWT_SECRET env = lit "mock-secret-key-for-migrations".
Proof. intros H. unfold JWT_SECRET, getenv_or. by rewrite H. Qed.

Lemma dev_identity_fields (u : pystr) :
  dev_identity u !! lit "identity" = Some (PStr u)
  /\ dev_identity u !! lit "is_authenticated" = Some (PBool true)
  /\ dev_identity u !! lit "display_name" = Some (PStr (lit "Dev User (" ++ u ++ lit ")"))
  /\ dev_identity u !! lit "email" = None.
Proof. split_and!; by vm_compute. Qed.

Lemma verified_identity_lookup (payload : pydict) (user_id email name : pyval) :
  let r := verified_identity payload user_id email name in
  r !! lit "identity" = Some (PStr (py_str user_id))
  /\ r !! lit "display_name" = Some (py_or name (py_or email (PStr (py_str user_id))))
  /\ r !! lit "email" = Some email
  /\ r !! lit "is_authenticated" = Some (PBool true)
  /\ r !! lit "permissions" = Some (PList [PStr (lit "read"); PStr (lit "write")])
  /\ r !! lit "metadata" =
       Some (PDict {[ lit "provider" := dict_get payload (lit "provider");
                      lit "org_id" := dict_get payload (lit "orgId");
                      lit "company_id" := dict_get payload (lit "companyId");
                      lit "family_id" := dict_get payload (lit "familyId") ]}).
Proof.
  unfold verified_identity.
  generalize (py_str user_id), (py_or name (py_or email (PStr (py_str user_id)))).
  generalize (PDict {[ lit "provider" := dict_get payload (lit "provider");
                      lit "org_id" := dict_get payload (lit "orgId");
                      lit "company_id" := dict_get payload (lit "companyId");
                      lit "family_id" := dict_get payload (lit "familyId") ]}).
  intros m s d. split_and!; by vm_compute.
Qed.

Lemma secret_not_configured_not_dev env (u : pystr) :
  secret_not_configured env <> Ok (dev_identity u).
Proof.
  unfold secret_not_configured. destruct (development env); [|done].
  intros H. apply (f_equal (field (lit "display_name"))) in H.
  vm_compute in H. discriminate.
Qed.

Lemma verify_token_not_dev env token (u : pystr) :
  verify_token env token <> Ok (dev_identity u).
Proof.
  unfold verify_token, verify_body.
  destruct (jwt_decode token (JWT_SECRET env)) as [payload|e]; cbn [mbind result_bind].
  - match goal with |- context [negb (truthy ?x)] => destruct (truthy x) end; [|done].
    cbn [negb verify_handlers]. intros H.
    apply (f_equal (field (lit "email"))) in H. cbn [field] in H.
    pose proof (verified_identity_lookup payload) as Hv. cbn zeta in Hv.
    rewrite (proj1 (proj2 (proj2 (Hv _ _ _)))) in H.
    by rewrite (proj2 (proj2 (proj2 (dev_identity_fields u)))) in H.
  - destruct e; cbn [verify_handlers]; try done.
    destruct (development env); [|done]. intros H.
    pose proof (f_equal (field (lit "identity")) H) as H1.
    pose proof (f_equal (field (lit "display_name")) H) as H2.
    vm_compute in H1. injection H1 as <-. vm_compute in H2. discriminate.
Qed.

Lemma py_or_first_truthy (a b c x : pyval) :
  first_truthy [a; b; c] = Some x -> py_or a (py_or b c) = x.
Proof.
  unfold py_or. cbn [first_truthy].
  destruct (truthy a), (truthy b), (truthy c); congruence.
Qed.

Lemma py_or_none_truthy (a b c : pyval) :
  first_truthy [a; b; c] = None -> truthy (py_or a (py_or b c)) = false.
Proof.
  unfold py_or. cbn [first_truthy].
  destruct (truthy a) eqn:Ea, (truthy b) eqn:Eb, (truthy c) eqn:Ec; congruence.
Qed.

Lemma first_truthy_truthy (l : list pyval) (x : pyval) :
  first_truthy l = Some x -> truthy x = true.
Proof.
  induction l as [|v l IH]; [done|]. cbn [first_truthy].
  destruct (truthy v) eqn:Ev; [congruence | done].
Qed.

Lemma display_name_first_truthy (name username email fallback : pyval) :
  py_or (py_or name username) (py_or email fallback)
  = default fallback (first_truthy [name; username; email]).
Proof.
  unfold py_or. cbn [first_truthy].
  destruct (truthy name) eqn:En; cbn; rewrite ?En; [done|].
  destruct (truthy username) eqn:Eu; cbn; rewrite ?Eu; [done|].
  by destruct (truthy email).
Qed.

Lemma dev_user_id_after_dash (a b : pystr) :
  contains (lit "-") a = false -> dev_user_id (a ++ lit "-" ++ b) = b.
Proof.
  intros Ha. unfold dev_user_id. change (lit "-") with [45] in *.
  assert (45 ∉ a) as Hn.
  { intros Hin%contains_char. congruence. }
  rewrite (proj2 (contains_char 45 (a ++ [45] ++ b))) by set_solver.
  cbn [app]. by rewrite split1_char.
Qed.

Lemma dev_user_id_no_dash token :
  contains (lit "-") token = false -> dev_user_id token = lit "anonymous".
Proof. intros H. unfold dev_user_id. by rewrite H. Qed.

End TokenLemmas.

Lemma empty_header_is_missing_witness :
  authenticate (ext := Stub.externals) ∅ (Stub.request "")
  = Raise (HTTPException 401 (lit "Authorization header required")).
Proof.
  destruct (empty_header_is_missing (ext := Stub.externals) ∅ (Stub.request ""))
    as (_ & _ & _ & _ & H).
  - intros k Hk. unfold Stub.request.
    destruct (decide (k = KStr (lit "authorization"))) as [-> | Hne].
    + right; left. apply lookup_singleton_eq.
    + left. by apply lookup_singleton_ne.
  - apply H. reflexivity.
Defined.

(** C7. For a header map without authorization key, adding the same value
    under any of the four keys (["authorization"] or ["Authorization"], as
    text or as bytes), either as the text [s] or as the UTF-8 byte sequence
    of [s], gives header maps on which the custom authenticator returns the
    same result: the same identity or the same failure. *)
Theorem header_variants_agree {ext : Externals} (env : environ) (headers : headers_t)
    (s : pystr) (b : pybytes) (k k' : hkey) (v v' : hval) :
  no_authorization_key headers ->
  utf8_encode s = Some b ->
  k ∈ authorization_keys -> k' ∈ authorization_keys ->
  v = HStr s \/ v = HBytes b ->
  v' = HStr s \/ v' = HBytes b ->
  authenticate env (<[k := v]> headers) = authenticate env (<[k' := v']> headers).
Proof.
  intros Hno Henc Hk Hk' Hv Hv'. rewrite !single_header by done.
  assert (forall w, w = HStr s \/ w = HBytes b ->
            decode_authorization (Some w) = Ok (Some s)) as Hdec.
  { intros w [-> | ->]; [done|]. cbn. by rewrite (utf8_decode_encode _ _ Henc). }
  by rewrite (Hdec v Hv), (Hdec v' Hv').
Qed.

Lemma header_variants_agree_witness :
  authenticate (ext := Stub.externals) ∅
    (<[KBytes (blit "Authorization") := HBytes (blit "Bearer signed.u1")]> ∅)
  = authenticate (ext := Stub.externals) ∅
      (<[KStr (lit "authorization") := HStr (lit "Bearer signed.u1")]> ∅).
Proof.
  apply (header_variants_agree (ext := Stub.externals) ∅ ∅
           (lit "Bearer signed.u1") (blit "Bearer signed.u1")).
  - intros k _. apply lookup_empty.
  - reflexivity.
  - unfold authorization_keys. repeat constructor.
  - unfold authorization_keys. repeat constructor.
  - right. reflexivity.
  - left. reflexivity.
Defined.

(** C5. On the header value "Bearer noop-Bearer x" the token that the
    handler processes is "noop-x" and the identity returned is "x": the
    interior occurrence of "Bearer " is removed together with the leading
    one, so the rest of the value after the prefix is not kept unchanged. *)
Theorem bearer_removed_everywhere {ext : Externals} (env : environ) :
  bearer_token (Stub.request "Bearer noop-Bearer x") = Some (lit "noop-x")
  /\ authenticate env (Stub.request "Bearer noop-Bearer x") = Ok (dev_identity (lit "x"))
  /\ field (lit "identity") (authenticate env (Stub.request "Bearer noop-Bearer x"))
     = Some (PStr (lit "x")).
Proof. split_and!; by vm_compute. Qed.

(** C3. For a token that reaches signature verification: when the
    verification fails because the token has expired, authentication fails
    with 401 "Token expired" whatever the environment; when it fails with
    another token-validation error, authentication returns the identity
    "dev-user-invalid-token" with [is_authenticated] true in development
    mode and fails with 401 "Invalid authentication token" otherwise. *)
Theorem verification_failures {ext : Externals} (env : environ) (headers : headers_t)
    (token : pystr) :
  reaches_verification env headers token ->
  (jwt_decode token (JWT_SECRET env) = Raise ExpiredSignatureError ->
   authenticate env headers = Raise (HTTPException 401 (lit "Token expired")))
  /\ (jwt_decode token (JWT_SECRET env) = Raise InvalidTokenError ->
      (development env = true ->
       field (lit "identity") (authenticate env headers)
       = Some (PStr (lit "dev-user-invalid-token"))
       /\ field (lit "is_authenticated") (authenticate env headers) = Some (PBool true))
      /\ (development env = false ->
          authenticate env headers
          = Raise (HTTPException 401 (lit "Invalid authentication token")))).
Proof.
  intros (Hb & Hd & Hs).
  rewrite (authenticate_bearer_token _ _ _ Hb), (authenticate_token_verify _ _ Hd Hs).
  unfold verify_token, verify_body. split.
  - by intros ->.
  - intros ->. cbn. split; intros ->; [split; by vm_compute | done].
Qed.

Lemma verification_failures_witness :
  authenticate (ext := Stub.externals) ∅ (Stub.request "Bearer signed.expired")
  = Raise (HTTPException 401 (lit "Token expired")).
Proof.
  destruct (verification_failures (ext := Stub.externals) ∅
              (Stub.request "Bearer signed.expired") (lit "signed.expired")) as [H _].
  - split_and!; [ reflexivity | reflexivity | discriminate ].
  - apply H. reflexivity.
Defined.

(** C8, as amended. For a request with a bearer token that is not a
    development token: when [SECRET_KEY] is set to the empty string, the
    signing secret is empty and authentication returns the identity
    "dev-user" with [is_authenticated] true in development mode and fails
    with 500 "Authentication not properly configured" otherwise; the secret
    is empty only in that case; when [SECRET_KEY] is not set, the secret is
    the placeholder "mock-secret-key-for-migrations" and the token goes to
    signature verification. *)
Theorem missing_secret {ext : Externals} (env : environ) (headers : headers_t)
    (token : pystr) :
  bearer_token headers = Some token ->
  is_dev_token token = false ->
  (env !! lit "SECRET_KEY" = Some [] ->
   (development env = true ->
    field (lit "identity") (authenticate env headers) = Some (PStr (lit "dev-user"))
    /\ field (lit "is_authenticated") (authenticate env headers) = Some (PBool true))
   /\ (development env = false ->
       authenticate env headers
       = Raise (HTTPException 500 (lit "Authentication not properly configured"))))
  /\ (JWT_SECRET env = [] <-> env !! lit "SECRET_KEY" = Some [])
  /\ (env !! lit "SECRET_KEY" = None ->
      JWT_SECRET env = lit "mock-secret-key-for-migrations"
      /\ authenticate env headers = verify_token env token).
Proof.
  intros Hb Hd. rewrite (authenticate_bearer_token _ _ _ Hb). split_and!.
  - intros Hs%JWT_SECRET_empty. rewrite (authenticate_token_no_secret _ _ Hd Hs).
    unfold secret_not_configured. split; intros ->; [split; by vm_compute | done].
  - apply JWT_SECRET_empty.
  - intros Hs. split; [by apply JWT_SECRET_unset|].
    apply authenticate_token_verify; [done|].
    by rewrite (JWT_SECRET_unset _ Hs).
Qed.

Lemma missing_secret_witness :
  authenticate (ext := Stub.externals) {[ lit "SECRET_KEY" := [] ]}
    (Stub.request "Bearer signed.u1")
  = Raise (HTTPException 500 (lit "Authentication not properly configured")).
Proof.
  destruct (missing_secret (ext := Stub.externals) {[ lit "SECRET_KEY" := [] ]}
              (Stub.request "Bearer signed.u1") (lit "signed.u1")) as [H _].
  - reflexivity.
  - reflexivity.
  - destruct H as [_ H]; [ reflexivity | ]. apply H. reflexivity.
Defined.

Lemma missing_secret_counterexample :
  (∅ : environ) !! lit "SECRET_KEY" = None
  /\ development ∅ = false
  /\ bearer_token (Stub.request "Bearer abc") = Some (lit "abc")
  /\ is_dev_token (lit "abc") = false
  /\ authenticate (ext := Stub.externals) ∅ (Stub.request "Bearer abc")
     = Raise (HTTPException 401 (lit "Invalid authentication token")).
Proof. split_and!; by vm_compute. Qed.

(** C2, as amended. For a header value "Bearer " followed by a token in
    which "Bearer " does not occur: the development identity is returned
    exactly when the token starts with "anonymous" or with "noop-"; it is
    then returned whatever the token library and the environment, with
    [is_authenticated] true and with the subject [dev_user_id token], which
    is the text after the first "-" of the token, or "anonymous" when the
    token has no "-". *)
Theorem dev_bypass {ext : Externals} (env : environ) (headers : headers_t)
    (token : pystr) :
  decode_authorization (get_authorization headers) = Ok (Some (lit "Bearer " ++ token)) ->
  contains (lit "Bearer ") token = false ->
  ((exists u, authenticate env headers = Ok (dev_identity u)) <->
   startswith (lit "anonymous") token = true \/ startswith (lit "noop-") token = true)
  /\ (startswith (lit "anonymous") token = true \/ startswith (lit "noop-") token = true ->
      authenticate env headers = Ok (dev_identity (dev_user_id token))
      /\ field (lit "identity") (authenticate env headers) = Some (PStr (dev_user_id token))
      /\ field (lit "is_authenticated") (authenticate env headers) = Some (PBool true))
  /\ (forall a b, token = a ++ lit "-" ++ b -> contains (lit "-") a = false ->
      dev_user_id token = b)
  /\ (contains (lit "-") token = false -> dev_user_id token = lit "anonymous").
Proof.
  intros Hh Hc.
  assert (authenticate env headers = authenticate_token env token) as ->.
  { apply authenticate_bearer_token. rewrite (bearer_token_prefix _ _ Hh).
    by rewrite (replace_absent _ _ _ bearer_nonempty Hc). }
  assert (startswith (lit "anonymous") token = true \/ startswith (lit "noop-") token = true
          <-> is_dev_token token = true) as Hdev.
  { unfold is_dev_token. by rewrite orb_true_iff. }
  split_and!.
  - rewrite Hdev. split.
    + intros [u Hu]. destruct (is_dev_token token) eqn:Hd; [done|]. exfalso.
      destruct (decide (JWT_SECRET env = [])) as [Hs|Hs].
      * rewrite (authenticate_token_no_secret _ _ Hd Hs) in Hu.
        by apply secret_not_configured_not_dev in Hu.
      * rewrite (authenticate_token_verify _ _ Hd Hs) in Hu.
        by apply verify_token_not_dev in Hu.
    + intros Hd. eexists. by apply authenticate_token_dev.
  - intros Hd%Hdev. rewrite (authenticate_token_dev _ _ Hd). cbn [field].
    destruct (dev_identity_fields (dev_user_id token)) as (? & ? & _). done.
  - intros a b -> Ha. by apply dev_user_id_after_dash.
  - apply dev_user_id_no_dash.
Qed.

Lemma dev_bypass_witness :
  field (lit "identity")
    (authenticate (ext := Stub.externals) ∅ (Stub.request "Bearer noop-team42"))
  = Some (PStr (lit "team42"))
  /\ field (lit "is_authenticated")
       (authenticate (ext := Stub.externals) ∅ (Stub.request "Bearer noop-team42"))
     = Some (PBool true).
Proof.
  destruct (dev_bypass (ext := Stub.externals) ∅ (Stub.request "Bearer noop-team42")
              (lit "noop-team42")) as (_ & H & _).
  - reflexivity.
  - reflexivity.
  - destruct H as (_ & H1 & H2); [ right; reflexivity | ].
    split; [ exact H1 | exact H2 ].
Defined.

Lemma dev_bypass_counterexample :
  lit "anonymous-bob" <> lit "anonymous"
  /\ startswith (lit "noop-") (lit "anonymous-bob") = false
  /\ is_dev_token (lit "anonymous-bob") = true
  /\ authenticate (ext := Stub.externals) ∅ (Stub.request "Bearer anonymous-bob")
     = Ok (dev_identity (lit "bob")).
Proof. split_and!; [ discriminate | by vm_compute .. ]. Qed.

(** The shortcut on the request of the specification's example, whatever the
    environment and the token library. *)
Lemma dev_bypass_team42 {ext : Externals} (env : environ) :
  authenticate env (Stub.request "Bearer noop-team42") = Ok (dev_identity (lit "team42")).
Proof. by vm_compute. Qed.

(** C6, as amended. For a token that reaches signature verification and
    whose signature verifies, when one of the claims [user_id], [sub], [id]
    has a value that is not falsy: the subject is [str] of the first such
    value; [display_name] is the first value that is not falsy among the
    claims [name], [username] and [email], else the subject; [email] is the
    [email] claim; [is_authenticated] is true; [permissions] is
    [read, write]; [metadata] holds the claims [provider], [orgId],
    [companyId] and [familyId]. *)
Theorem verified_token_identity {ext : Externals} (env : environ) (headers : headers_t)
    (token : pystr) (payload : pydict) (uid : pyval) :
  reaches_verification env headers token ->
  jwt_decode token (JWT_SECRET env) = Ok payload ->
  first_truthy [ dict_get payload (lit "user_id"); dict_get payload (lit "sub");
                 dict_get payload (lit "id") ] = Some uid ->
  let r := authenticate env headers in
  field (lit "identity") r = Some (PStr (py_str uid))
  /\ field (lit "display_name") r
     = Some (default (PStr (py_str uid))
               (first_truthy [ dict_get payload (lit "name");
                               dict_get payload (lit "username");
                               dict_get payload (lit "email") ]))
  /\ field (lit "email") r = Some (dict_get payload (lit "email"))
  /\ field (lit "is_authenticated") r = Some (PBool true)
  /\ field (lit "permissions") r = Some (PList [PStr (lit "read"); PStr (lit "write")])
  /\ field (lit "metadata") r
     = Some (PDict {[ lit "provider" := dict_get payload (lit "provider");
                      lit "org_id" := dict_get payload (lit "orgId");
                      lit "company_id" := dict_get payload (lit "companyId");
                      lit "family_id" := dict_get payload (lit "familyId") ]}).
Proof.
  intros (Hb & Hd & Hs) Hjwt Huid r. subst r.
  rewrite (authenticate_bearer_token _ _ _ Hb), (authenticate_token_verify _ _ Hd Hs).
  unfold verify_token, verify_body. rewrite Hjwt. cbn [mbind result_bind].
  rewrite (py_or_first_truthy _ _ _ _ Huid), (first_truthy_truthy _ _ Huid).
  cbn [negb verify_handlers field].
  pose proof (verified_identity_lookup payload uid (dict_get payload (lit "email"))
                (py_or (dict_get payload (lit "name")) (dict_get payload (lit "username"))))
    as Hv.
  cbn zeta in Hv. rewrite display_name_first_truthy in Hv. exact Hv.
Qed.

Lemma verified_token_identity_witness :
  field (lit "identity")
    (authenticate (ext := Stub.externals) ∅ (Stub.request "Bearer signed.u1"))
  = Some (PStr (lit "u1")).
Proof.
  destruct (verified_token_identity (ext := Stub.externals) ∅
              (Stub.request "Bearer signed.u1") (lit "signed.u1")
              Stub.payload_u1 (PStr (lit "u1"))) as [H _].
  - split_and!; [ reflexivity | reflexivity | discriminate ].
  - reflexivity.
  - reflexivity.
  - exact H.
Defined.

Lemma verified_token_identity_counterexample :
  jwt_decode (Externals := Stub.externals) (lit "signed.bob") (JWT_SECRET ∅)
  = Ok Stub.payload_bob
  /\ Stub.payload_bob !! lit "name" = None
  /\ Stub.payload_bob !! lit "email" = Some (PStr (lit "bob@example.org"))
  /\ field (lit "display_name")
       (authenticate (ext := Stub.externals) ∅ (Stub.request "Bearer signed.bob"))
     = Some (PStr (lit "bob")).
Proof. split_and!; by vm_compute. Qed.

(** When the verified payload has no usable identity claim, the 401 error of
    line 150 is raised inside the [try] statement and replaced by the last
    [except] clause. *)
Lemma missing_identity_claim {ext : Externals} (env : environ) (headers : headers_t)
    (token : pystr) (payload : pydict) :
  reaches_verification env headers token ->
  jwt_decode token (JWT_SECRET env) = Ok payload ->
  first_truthy [ dict_get payload (lit "user_id"); dict_get payload (lit "sub");
                 dict_get payload (lit "id") ] = None ->
  verify_body env token
  = Raise (HTTPException 401 (lit "Invalid token: missing user identity"))
  /\ authenticate env headers
     = Raise (HTTPException 500 (lit "Authentication system error")).
Proof.
  intros (Hb & Hd & Hs) Hjwt Huid.
  rewrite (authenticate_bearer_token _ _ _ Hb), (authenticate_token_verify _ _ Hd Hs).
  unfold verify_token, verify_body. rewrite Hjwt. cbn [mbind result_bind].
  by rewrite (py_or_none_truthy _ _ _ Huid).
Qed.

Example missing_identity_claim_ex :
  authenticate (ext := Stub.externals) ∅ (Stub.request "Bearer signed.no-id")
  = Raise (HTTPException 500 (lit "Authentication system error")).
Proof. by vm_compute. Qed.

(** ** The authorizer *)

Lemma authorize_mapping (ctx : AuthContext) (value : pydict) :
  identity (user ctx) <> [] ->
  metadata_is_mapping value = true ->
  authorize ctx value =
    (Ok {[ lit "owner" := PStr (identity (user ctx)) ]},
     <[lit "metadata" :=
         PDict ({[ lit "owner" := PStr (identity (user ctx)) ]} ∪ metadata_entries value)]> value).
Proof.
  intros Hid Hm. unfold authorize, authorize_body, setdefault, metadata_is_mapping,
    metadata_entries, dict_update in *.
  destruct (identity (user ctx)) as [|c u] eqn:Eu; [done|]. cbn [truthy negb].
  destruct (value !! lit "metadata") as [[| | | | |m]|] eqn:Em; try done.
  cbn. by rewrite insert_insert_eq.
Qed.

Lemma authorize_not_mapping (ctx : AuthContext) (value : pydict) :
  identity (user ctx) <> [] ->
  metadata_is_mapping value = false ->
  authorize ctx value =
    (Raise (HTTPException 500 (lit "Authorization system error")), value).
Proof.
  intros Hid Hm. unfold authorize, authorize_body, setdefault, metadata_is_mapping in *.
  destruct (identity (user ctx)) as [|c u] eqn:Eu; [done|]. cbn [truthy negb].
  destruct (value !! lit "metadata") as [[| | | | |m]|] eqn:Em; try done.
Qed.

Lemma authorize_no_identity (ctx : AuthContext) (value : pydict) :
  identity (user ctx) = [] ->
  authorize ctx value =
    (Raise (HTTPException 401 (lit "Invalid user identity")), value).
Proof. intros Hid. unfold authorize, authorize_body. by rewrite Hid. Qed.

(** C1, as amended. For a non-empty subject and a payload whose [metadata]
    entry is absent or a dictionary, the owner-scoped authorizer returns the
    filter [{owner: subject}]; for a non-empty subject and any other payload
    it returns no filter and fails with 500; whatever the input, a filter
    that it returns is [{owner: subject}]; for an empty subject it fails
    with 401 "Invalid user identity". *)
Theorem authorize_owner_filter (ctx : AuthContext) (value : pydict) :
  (identity (user ctx) <> [] -> metadata_is_mapping value = true ->
   (authorize ctx value).1 = Ok {[ lit "owner" := PStr (identity (user ctx)) ]})
  /\ (identity (user ctx) <> [] -> metadata_is_mapping value = false ->
      (authorize ctx value).1 = Raise (HTTPException 500 (lit "Authorization system error")))
  /\ (forall f : pydict, (authorize ctx value).1 = Ok f ->
      f = {[ lit "owner" := PStr (identity (user ctx)) ]})
  /\ (identity (user ctx) = [] ->
      (authorize ctx value).1 = Raise (HTTPException 401 (lit "Invalid user identity"))).
Proof.
  split_and!.
  - intros Hid Hm. by rewrite authorize_mapping.
  - intros Hid Hm. by rewrite authorize_not_mapping.
  - intros f. destruct (decide (identity (user ctx) = [])) as [Hid|Hid].
    { by rewrite authorize_no_identity. }
    destruct (metadata_is_mapping value) eqn:Hm.
    + rewrite authorize_mapping by done. by intros [= <-].
    + by rewrite authorize_not_mapping.
  - intros Hid. by rewrite authorize_no_identity.
Qed.

Lemma authorize_owner_filter_witness :
  (authorize Stub.ctx_u1 ∅).1 = Ok {[ lit "owner" := PStr (lit "u1") ]}.
Proof.
  destruct (authorize_owner_filter Stub.ctx_u1 ∅) as [H _].
  apply H; [ discriminate | reflexivity ].
Defined.

Lemma authorize_owner_filter_counterexample :
  identity (user Stub.ctx_u1) <> []
  /\ (authorize Stub.ctx_u1 {[ lit "metadata" := PNone ]}).1
     = Raise (HTTPException 500 (lit "Authorization system error")).
Proof. split; [ discriminate | reflexivity ]. Qed.

(** C9, as amended. For a non-empty subject and a payload whose [metadata]
    entry is absent or a dictionary, the authorizer returns
    [{owner: subject}] and leaves a payload whose [metadata] dictionary maps
    [owner] to the subject and agrees with the former metadata on every
    other key; the other entries of the payload are unchanged; authorizing
    the resulting payload again returns the same filter and the same
    payload. *)
Theorem authorize_stamps_owner (ctx : AuthContext) (value : pydict) :
  identity (user ctx) <> [] ->
  metadata_is_mapping value = true ->
  exists stamped : pydict,
    authorize ctx value =
      (Ok {[ lit "owner" := PStr (identity (user ctx)) ]},
       <[lit "metadata" := PDict stamped]> value)
    /\ stamped !! lit "owner" = Some (PStr (identity (user ctx)))
    /\ (forall k, k <> lit "owner" -> stamped !! k = metadata_entries value !! k)
    /\ (forall k, k <> lit "metadata" -> (authorize ctx value).2 !! k = value !! k)
    /\ authorize ctx (authorize ctx value).2 = authorize ctx value.
Proof.
  intros Hid Hm.
  exists ({[ lit "owner" := PStr (identity (user ctx)) ]} ∪ metadata_entries value).
  rewrite (authorize_mapping _ _ Hid Hm). split_and!.
  - done.
  - apply lookup_union_Some_l, lookup_singleton_eq.
  - intros k Hk. rewrite lookup_union_r; [done|]. by apply lookup_singleton_ne.
  - intros k Hk. cbn. by rewrite lookup_insert_ne.
  - cbn [snd]. rewrite authorize_mapping; [| done |].
    + unfold metadata_entries at 1. rewrite lookup_insert_eq.
      by rewrite insert_insert_eq, (assoc_L (∪)), (idemp_L (∪)).
    + unfold metadata_is_mapping. by rewrite lookup_insert_eq.
Qed.

Lemma authorize_stamps_owner_witness :
  exists stamped : pydict,
    authorize Stub.ctx_u1 {[ lit "thread_id" := PStr (lit "t1") ]} =
      (Ok {[ lit "owner" := PStr (lit "u1") ]},
       <[lit "metadata" := PDict stamped]> {[ lit "thread_id" := PStr (lit "t1") ]})
    /\ stamped !! lit "owner" = Some (PStr (lit "u1")).
Proof.
  destruct (authorize_stamps_owner Stub.ctx_u1 {[ lit "thread_id" := PStr (lit "t1") ]})
    as (stamped & H1 & H2 & _); [ discriminate | reflexivity | ].
  exists stamped. split; [ exact H1 | exact H2 ].
Defined.

Lemma authorize_stamps_owner_counterexample :
  identity (user Stub.ctx_u1) <> []
  /\ (authorize Stub.ctx_u1 {[ lit "metadata" := PList [] ]}).2 !! lit "metadata"
     = Some (PList []).
Proof. split; [ discriminate | reflexivity ]. Qed.

(** ** Further properties of the custom authenticator *)

(** Membership in an explicit list. *)
Ltac in_list := repeat first [ apply list_elem_of_here | apply list_elem_of_further ].

Section AuthenticateOutcomes.
Context {ext : Externals}.
Implicit Types (env : environ) (headers : headers_t) (token : pystr).

Lemma decode_authorization_raise (a : option hval) (e : exn) :
  decode_authorization a = Raise e ->
  e = UnicodeDecodeError /\ exists b, a = Some (HBytes b) /\ utf8_decode b = None.
Proof.
  destruct a as [[s|b]|]; cbn; try done.
  destruct (utf8_decode b) eqn:Eb; [done|]. intros [= <-]. eauto.
Qed.

Lemma verify_token_raise env token (e : exn) :
  verify_token env token = Raise e ->
  e = HTTPException 401 (lit "Token expired")
  \/ e = HTTPException 401 (lit "Invalid authentication token")
  \/ e = HTTPException 500 (lit "Authentication system error").
Proof.
  unfold verify_token. destruct (verify_body env token) as [r|e0]; [done|].
  destruct e0; cbn [verify_handlers]; try (intros [= <-]; auto).
  destruct (development env); [done|]. intros [= <-]. auto.
Qed.

Lemma authenticate_token_raise env token (e : exn) :
  authenticate_token env token = Raise e ->
  e = HTTPException 500 (lit "Authentication not properly configured")
  \/ e = HTTPException 401 (lit "Token expired")
  \/ e = HTTPException 401 (lit "Invalid authentication token")
  \/ e = HTTPException 500 (lit "Authentication system error").
Proof.
  unfold authenticate_token. destruct (is_dev_token token); [done|].
  destruct (negb _).
  - unfold secret_not_configured. destruct (development env); [done|].
    intros [= <-]. auto.
  - intros H%verify_token_raise. tauto.
Qed.

Lemma authenticate_header_raise env (a : option pystr) (e : exn) :
  authenticate_header env a = Raise e ->
  e ∈ authenticate_failures
  /\ e <> UnicodeDecodeError
  /\ (e = HTTPException 401
            (lit "Invalid authorization format. Expected 'Bearer <token>'") ->
      exists s, a = Some s /\ s <> [] /\ startswith (lit "Bearer ") s = false).
Proof.
  assert (forall e', missing_authorization env = Raise e' ->
            e' = HTTPException 401 (lit "Authorization header required")) as Hmiss.
  { intros e'. unfold missing_authorization. destruct (allow_anonymous env); [done|].
    by intros [= <-]. }
  unfold authenticate_failures.
  destruct a as [[|c s]|]; cbn [authenticate_header].
  - intros ->%Hmiss. split_and!; [in_list | discriminate ..].
  - destruct (startswith (lit "Bearer ") (c :: s)) eqn:Hs; cbn [negb].
    + intros [-> | [-> | [-> | ->]]]%authenticate_token_raise;
        (split_and!; [in_list | discriminate ..]).
    + intros [= <-]. split_and!; [in_list | discriminate | eauto].
  - intros ->%Hmiss. split_and!; [in_list | discriminate ..].
Qed.

(** X1. When the custom [authenticate] fails, the exception is one of
    seven: [UnicodeDecodeError], or an [HTTPException] with one of the six
    status and message pairs of [authenticate_failures].  The 401 "Invalid
    token: missing user identity" of line 150 is not among them: it never
    reaches the caller. *)
Theorem authenticate_failure_kinds env headers (e : exn) :
  authenticate env headers = Raise e ->
  e ∈ authenticate_failures
  /\ e <> HTTPException 401 (lit "Invalid token: missing user identity").
Proof.
  intros H.
  assert (e ∈ authenticate_failures) as Hin.
  { unfold authenticate in H.
    destruct (decode_authorization (get_authorization headers)) as [a|e0] eqn:Ed.
    - by apply authenticate_header_raise in H as [? _].
    - cbn in H. injection H as <-. apply decode_authorization_raise in Ed as [-> _].
      unfold authenticate_failures. in_list. }
  split; [done|]. intros ->. unfold authenticate_failures in Hin.
  repeat (apply elem_of_cons in Hin as [Hin | Hin]; [discriminate|]).
  by apply elem_of_nil in Hin.
Qed.

(** X2. The custom [authenticate] ends with [UnicodeDecodeError], which is
    not an HTTP error, exactly when the header value that lines 64-69 select
    is a byte sequence that is not valid UTF-8. *)
Theorem undecodable_header env headers :
  authenticate env headers = Raise UnicodeDecodeError <->
  exists b, get_authorization headers = Some (HBytes b) /\ utf8_decode b = None.
Proof.
  unfold authenticate. split.
  - destruct (decode_authorization (get_authorization headers)) as [a|e0] eqn:Ed.
    + cbn. by intros (_ & Hne & _)%authenticate_header_raise.
    + intros _. by apply decode_authorization_raise in Ed as [_ ?].
  - intros (b & -> & Hb). cbn. by rewrite Hb.
Qed.

(** X3. The custom [authenticate] fails with 401 "Invalid authorization
    format" exactly when the text of the selected header is not empty and
    does not start with "Bearer "; neither [ALLOW_ANONYMOUS] nor the
    development mode changes that. *)
Theorem invalid_format_exactly env headers :
  authenticate env headers
  = Raise (HTTPException 401
             (lit "Invalid authorization format. Expected 'Bearer <token>'")) <->
  exists a, decode_authorization (get_authorization headers) = Ok (Some a)
            /\ a <> [] /\ startswith (lit "Bearer ") a = false.
Proof.
  unfold authenticate. split.
  - destruct (decode_authorization (get_authorization headers)) as [a|e0] eqn:Ed.
    + cbn. intros (_ & _ & H)%authenticate_header_raise.
      destruct (H eq_refl) as (s & -> & ? & ?). eauto.
    + cbn. intros [= ->]. by apply decode_authorization_raise in Ed as [? _].
  - intros (a & -> & Hne & Hs). cbn. by apply authenticate_header_malformed.
Qed.

End AuthenticateOutcomes.

Lemma invalid_format_exactly_witness :
  authenticate (ext := Stub.externals) {[ lit "ALLOW_ANONYMOUS" := lit "true" ]}
    (Stub.request "bearer signed.u1")
  = Raise (HTTPException 401
             (lit "Invalid authorization format. Expected 'Bearer <token>'")).
Proof.
  apply (invalid_format_exactly (ext := Stub.externals)).
  exists (lit "bearer signed.u1"). split_and!; [ reflexivity | discriminate | reflexivity ].
Defined.


Lemma authenticate_failure_kinds_witness :
  HTTPException 401 (lit "Token expired") ∈ authenticate_failures.
Proof.
  apply (authenticate_failure_kinds (ext := Stub.externals) ∅
           (Stub.request "Bearer signed.expired")).
  reflexivity.
Defined.

Lemma undecodable_header_witness :
  authenticate (ext := Stub.externals) ∅
    {[ KBytes (blit "authorization") := HBytes [xc0; x80] ]}
  = Raise UnicodeDecodeError.
Proof.
  apply (undecodable_header (ext := Stub.externals)).
  exists [xc0; x80]. split; reflexivity.
Defined.


Section MoreAuthenticate.
Context {ext : Externals}.
Implicit Types (env : environ) (headers : headers_t) (token : pystr).

Lemma header_or_falsy (a b : option hval) :
  header_truthy a = false -> header_or a b = b.
Proof. intros H. unfold header_or. by rewrite H. Qed.

Lemma header_or_truthy (a b : option hval) :
  header_truthy a = true -> header_or a b = a.
Proof. intros H. unfold header_or. by rewrite H. Qed.

Lemma get_authorization_first headers (pre post : list hkey) (k : hkey) :
  authorization_keys = pre ++ k :: post ->
  (forall k', k' ∈ pre -> header_truthy (headers !! k') = false) ->
  header_truthy (headers !! k) = true ->
  get_authorization headers = headers !! k.
Proof.
  intros Hkeys Hpre Hk. unfold get_authorization, authorization_keys in *.
  destruct pre as [|p1 [|p2 [|p3 [|p4 pre]]]]; simplify_eq/=.
  - by rewrite header_or_truthy.
  - rewrite header_or_falsy by (apply Hpre; repeat constructor).
    by rewrite header_or_truthy.
  - rewrite !header_or_falsy by (apply Hpre; repeat constructor).
    by rewrite header_or_truthy.
  - by rewrite !header_or_falsy by (apply Hpre; repeat constructor).
  - by destruct pre.
Qed.

(** X4. The four header keys are tried in the order ["authorization"],
    ["Authorization"], [b"authorization"], [b"Authorization"]: when a key
    has a value that is neither empty nor absent and every key before it is
    absent or empty, the request is authenticated as if that value were its
    only authorization header, whatever the keys after it hold. *)
Theorem header_precedence env headers (pre post : list hkey) (k : hkey) (v : hval) :
  authorization_keys = pre ++ k :: post ->
  (forall k', k' ∈ pre -> header_truthy (headers !! k') = false) ->
  headers !! k = Some v ->
  header_truthy (Some v) = true ->
  authenticate env headers = authenticate env {[ KStr (lit "authorization") := v ]}.
Proof.
  intros Hkeys Hpre Hk Hv.
  rewrite <- (insert_empty (M := gmap hkey)), single_header;
    [ | intros ? _; apply lookup_empty | unfold authorization_keys; repeat constructor ].
  unfold authenticate.
  rewrite (get_authorization_first headers pre post k Hkeys Hpre); by rewrite Hk.
Qed.

(** X5. The result of the custom [authenticate] depends on the header map
    only through the four authorization keys and on the environment only
    through [SECRET_KEY], [NODE_ENV] and [ALLOW_ANONYMOUS]. *)
Theorem authenticate_reads_only env env' headers headers' :
  (forall k, k ∈ authorization_keys -> headers !! k = headers' !! k) ->
  env !! lit "SECRET_KEY" = env' !! lit "SECRET_KEY" ->
  env !! lit "NODE_ENV" = env' !! lit "NODE_ENV" ->
  env !! lit "ALLOW_ANONYMOUS" = env' !! lit "ALLOW_ANONYMOUS" ->
  authenticate env headers = authenticate env' headers'.
Proof.
  intros (H1 & H2 & H3 & H4)%forall_keys Hs Hn Ha.
  assert (get_authorization headers = get_authorization headers') as Hg.
  { unfold get_authorization. by rewrite H1, H2, H3, H4. }
  assert (JWT_SECRET env = JWT_SECRET env') as Hsec.
  { unfold JWT_SECRET, getenv_or. by rewrite Hs. }
  assert (development env = development env') as Hdev.
  { unfold development. by rewrite Hn. }
  assert (allow_anonymous env = allow_anonymous env') as Hanon.
  { unfold allow_anonymous, getenv_or. by rewrite Ha. }
  unfold authenticate, authenticate_header, missing_authorization, authenticate_token,
    secret_not_configured, verify_token, verify_handlers, verify_body.
  by rewrite Hg, Hsec, Hdev, Hanon.
Qed.

Lemma startswith_elem (p s : pystr) (c : N) :
  startswith p s = true -> c ∈ p -> c ∈ s.
Proof.
  revert s. induction p as [|a p IH]; intros s; [by intros _ ?%elem_of_nil|].
  destruct s as [|b s]; [done|]. cbn.
  intros [->%N.eqb_eq Hp]%andb_true_iff [-> | Hc]%elem_of_cons.
  - apply list_elem_of_here.
  - apply list_elem_of_further. by apply IH.
Qed.

Lemma contains_elem (p s : pystr) (c : N) :
  contains p s = true -> c ∈ p -> c ∈ s.
Proof.
  induction s as [|b s IH]; cbn [contains].
  - rewrite orb_false_r. apply startswith_elem.
  - intros [Hs | Hc]%orb_true_iff Hin.
    + by apply (startswith_elem p).
    + apply list_elem_of_further. by apply IH.
Qed.

Lemma no_space_no_bearer (s : pystr) : 32 ∉ s -> contains (lit "Bearer ") s = false.
Proof.
  intros Hs. destruct (contains (lit "Bearer ") s) eqn:Hc; [|done].
  exfalso. apply Hs. apply (contains_elem _ _ 32 Hc). change (lit "Bearer ") with [66; 101; 97; 114; 101; 114; 32]. repeat constructor.
Qed.

(** X6. When the header text is "Bearer " followed by a token without
    space character, the token handed to the rest of the handler is that
    token, unchanged. *)
Theorem token_without_space env headers token :
  decode_authorization (get_authorization headers) = Ok (Some (lit "Bearer " ++ token)) ->
  32 ∉ token ->
  bearer_token headers = Some token
  /\ authenticate env headers = authenticate_token env token.
Proof.
  intros Hh Hsp.
  assert (bearer_token headers = Some token) as Hb.
  { rewrite (bearer_token_prefix _ _ Hh).
    by rewrite (replace_absent _ _ _ bearer_nonempty (no_space_no_bearer _ Hsp)). }
  split; [done | by apply authenticate_bearer_token].
Qed.

(** X7. For a header text "Bearer noop-" followed by [x], where "Bearer "
    does not occur in [x], the custom [authenticate] returns the development
    identity whose subject is [x] as it stands, with [is_authenticated]
    true; [x] may contain "-" and may be empty. *)
Theorem noop_token_subject env headers (x : pystr) :
  decode_authorization (get_authorization headers)
  = Ok (Some (lit "Bearer noop-" ++ x)) ->
  contains (lit "Bearer ") x = false ->
  authenticate env headers = Ok (dev_identity x)
  /\ field (lit "identity") (authenticate env headers) = Some (PStr x)
  /\ field (lit "is_authenticated") (authenticate env headers) = Some (PBool true).
Proof.
  intros Hh Hx.
  assert (authenticate env headers = Ok (dev_identity x)) as ->.
  { change (lit "Bearer noop-" ++ x) with (lit "Bearer " ++ (lit "noop-" ++ x)) in Hh.
    rewrite (authenticate_bearer_token env headers (lit "noop-" ++ x)).
    - rewrite authenticate_token_dev by (apply orb_true_iff; right; apply startswith_app).
      change (lit "noop-" ++ x) with (lit "noop" ++ lit "-" ++ x).
      by rewrite dev_user_id_after_dash.
    - rewrite (bearer_token_prefix _ _ Hh). f_equal.
      apply (replace_absent _ _ _ bearer_nonempty).
      change (lit "noop-" ++ x) with (110 :: 111 :: 111 :: 112 :: 45 :: x).
      cbn [contains]. rewrite Hx.
      change (lit "Bearer ") with [66; 101; 97; 114; 101; 114; 32]. reflexivity. }
  cbn [field]. destruct (dev_identity_fields x) as (? & ? & _). done.
Qed.

Lemma first_truthy_py_or (a b c : pyval) :
  truthy (py_or a (py_or b c)) = true ->
  first_truthy [a; b; c] = Some (py_or a (py_or b c)).
Proof.
  unfold py_or. cbn [first_truthy].
  destruct (truthy a) eqn:Ea; [done|]. destruct (truthy b) eqn:Eb; [done|].
  by intros ->.
Qed.

(** X8. Outside development mode, a request that reaches signature
    verification gets an identity only if [jwt.decode] accepts the token and
    the payload has an identity claim that is not falsy; the subject is then
    [str] of the first such claim. *)
Theorem strict_mode_needs_verification env headers token (r : pydict) :
  reaches_verification env headers token ->
  development env = false ->
  authenticate env headers = Ok r ->
  exists (payload : pydict) (uid : pyval),
    jwt_decode token (JWT_SECRET env) = Ok payload
    /\ first_truthy [ dict_get payload (lit "user_id"); dict_get payload (lit "sub");
                      dict_get payload (lit "id") ] = Some uid
    /\ r !! lit "identity" = Some (PStr (py_str uid)).
Proof.
  intros (Hb & Hd & Hs) Hdev.
  rewrite (authenticate_bearer_token _ _ _ Hb), (authenticate_token_verify _ _ Hd Hs).
  unfold verify_token, verify_body.
  destruct (jwt_decode token (JWT_SECRET env)) as [payload|e]; cbn [mbind result_bind].
  - match goal with |- context [negb (truthy ?x)] => destruct (truthy x) eqn:Hu end;
      [|done].
    cbn [negb verify_handlers]. intros [= <-].
    eexists payload, _. split_and!; [done | by apply first_truthy_py_or | ].
    pose proof (verified_identity_lookup payload) as Hv. cbn zeta in Hv.
    apply Hv.
  - destruct e; cbn [verify_handlers]; try done. by rewrite Hdev.
Qed.

Lemma utf8_decode_nil (b : pybytes) : utf8_decode b = Some [] -> b = [].
Proof.
  destruct b as [|b0 r]; [done|]. cbn [utf8_decode]. intros H. exfalso. revert H.
  repeat case_match; try done; by destruct (utf8_decode _).
Qed.

Lemma verify_token_ok env token (r : pydict) :
  verify_token env token = Ok r ->
  (exists s, r !! lit "identity" = Some (PStr s))
  /\ r !! lit "is_authenticated" = Some (PBool true).
Proof.
  unfold verify_token, verify_body.
  destruct (jwt_decode token (JWT_SECRET env)) as [payload|e]; cbn [mbind result_bind].
  - match goal with |- context [negb (truthy ?x)] => destruct (truthy x) end; [|done].
    cbn [negb verify_handlers]. intros [= <-].
    pose proof (verified_identity_lookup payload) as Hv. cbn zeta in Hv.
    split; [eexists|]; apply Hv.
  - destruct e; cbn [verify_handlers]; try done.
    destruct (development env); [|done]. intros [= <-].
    split; [eexists|]; by vm_compute.
Qed.

Lemma authenticate_token_ok env token (r : pydict) :
  authenticate_token env token = Ok r ->
  (exists s, r !! lit "identity" = Some (PStr s))
  /\ r !! lit "is_authenticated" = Some (PBool true).
Proof.
  unfold authenticate_token. destruct (is_dev_token token).
  { intros [= <-]. destruct (dev_identity_fields (dev_user_id token)) as (? & ? & _).
    eauto. }
  destruct (negb _); [|apply verify_token_ok].
  unfold secret_not_configured. destruct (development env); [|done].
  intros [= <-]. split; [eexists|]; by vm_compute.
Qed.

(** X9. Every identity that the custom [authenticate] returns has a string
    under [identity], and it has [is_authenticated] true unless it is the
    anonymous identity of lines 79-83, which is returned only when
    [ALLOW_ANONYMOUS] is enabled and no authorization header with a value
    was found. *)
Theorem unauthenticated_only_anonymous env headers (r : pydict) :
  authenticate env headers = Ok r ->
  (exists s, r !! lit "identity" = Some (PStr s))
  /\ (r !! lit "is_authenticated" = Some (PBool true)
      \/ (r = anonymous_identity /\ allow_anonymous env = true
           /\ header_truthy (get_authorization headers) = false)).
Proof.
  unfold authenticate.
  assert (forall a, decode_authorization (get_authorization headers) = Ok a ->
            (a = None \/ a = Some []) ->
            header_truthy (get_authorization headers) = false) as Hfalsy.
  { intros a. destruct (get_authorization headers) as [[[|??]|[|b0 bs]]|]; cbn [decode_authorization header_truthy]; try done.
    - intros [= <-]. by intros [|].
    - destruct (utf8_decode (b0 :: bs)) as [s|] eqn:Eb; [|done].
      intros [= <-] [|[= ->]]; [done|]. by apply utf8_decode_nil in Eb. }
  assert (missing_authorization env = Ok r ->
          r = anonymous_identity /\ allow_anonymous env = true) as Hmiss.
  { unfold missing_authorization. destruct (allow_anonymous env); [|done].
    by intros [= <-]. }
  destruct (decode_authorization (get_authorization headers)) as [a|e] eqn:Ed; [|done].
  cbn [mbind result_bind]. destruct a as [[|c s]|]; cbn [authenticate_header].
  - intros [-> ?]%Hmiss. split; [eexists; by vm_compute|]. right.
    split_and!; [done | done | by apply (Hfalsy _ eq_refl); right].
  - destruct (negb _); [done|]. intros [? ?]%authenticate_token_ok. auto.
  - intros [-> ?]%Hmiss. split; [eexists; by vm_compute|]. right.
    split_and!; [done | done | by apply (Hfalsy _ eq_refl); left].
Qed.

End MoreAuthenticate.


Section Subject.
Context {ext : Externals}.

Lemma py_str_scalar_nonempty (v : pyval) :
  is_scalar v = true -> truthy v = true -> py_str v <> [].
Proof.
  destruct v as [|[|]|z|[|c s]|l|d]; try done.
  intros _ _. unfold py_str.
  destruct (Z.to_int z) as [[]|[]]; discriminate.
Qed.

(** X10. A request that reaches signature verification and gets an identity
    has a non-empty subject, provided the identity claims [user_id], [sub]
    and [id] of the payload are not lists or dictionaries. *)
Theorem verified_subject_nonempty (env : environ) (headers : headers_t) (token : pystr)
    (r : pydict) :
  reaches_verification env headers token ->
  (forall payload, jwt_decode token (JWT_SECRET env) = Ok payload ->
     is_scalar (dict_get payload (lit "user_id")) = true
     /\ is_scalar (dict_get payload (lit "sub")) = true
     /\ is_scalar (dict_get payload (lit "id")) = true) ->
  authenticate env headers = Ok r ->
  exists s, r !! lit "identity" = Some (PStr s) /\ s <> [].
Proof.
  intros (Hb & Hd & Hs) Hscalar.
  rewrite (authenticate_bearer_token _ _ _ Hb), (authenticate_token_verify _ _ Hd Hs).
  unfold verify_token, verify_body.
  destruct (jwt_decode token (JWT_SECRET env)) as [payload|e]; cbn [mbind result_bind].
  - match goal with |- context [negb (truthy ?x)] => destruct (truthy x) eqn:Hu end;
      [|done].
    cbn [negb verify_handlers]. intros [= <-].
    pose proof (verified_identity_lookup payload) as Hv. cbn zeta in Hv.
    eexists. split; [apply Hv|].
    apply py_str_scalar_nonempty; [|done].
    destruct (Hscalar payload eq_refl) as (? & ? & ?).
    unfold py_or. by repeat case_match.
  - destruct e; cbn [verify_handlers]; try done.
    destruct (development env); [|done]. intros [= <-].
    eexists. split; by vm_compute.
Qed.
End Subject.



Lemma header_precedence_witness :
  authenticate (ext := Stub.externals) ∅
    {[ KStr (lit "authorization") := HStr [];
       KStr (lit "Authorization") := HStr (lit "Bearer noop-a");
       KBytes (blit "authorization") := HBytes (blit "Bearer noop-b") ]}
  = authenticate (ext := Stub.externals) ∅
      {[ KStr (lit "authorization") := HStr (lit "Bearer noop-a") ]}.
Proof.
  apply (header_precedence (ext := Stub.externals) ∅ _
           [KStr (lit "authorization")] [KBytes (blit "authorization");
                                         KBytes (blit "Authorization")]
           (KStr (lit "Authorization"))).
  - reflexivity.
  - intros k' ->%list_elem_of_singleton. reflexivity.
  - reflexivity.
  - reflexivity.
Defined.

Lemma authenticate_reads_only_witness :
  authenticate (ext := Stub.externals) {[ lit "HOME" := lit "/root" ]}
    (Stub.request "Bearer signed.u1")
  = authenticate (ext := Stub.externals) ∅
      (<[KStr (lit "x-request-id") := HStr (lit "7")]> (Stub.request "Bearer signed.u1")).
Proof.
  apply (authenticate_reads_only (ext := Stub.externals)).
  - apply forall_keys. split_and!; reflexivity.
  - reflexivity.
  - reflexivity.
  - reflexivity.
Defined.

Lemma token_without_space_witness :
  bearer_token (Stub.request "Bearer signed.u1") = Some (lit "signed.u1").
Proof.
  apply (token_without_space (ext := Stub.externals) ∅).
  - reflexivity.
  - apply (bool_decide_unpack _). vm_compute. exact I.
Defined.

Lemma noop_token_subject_witness :
  field (lit "identity")
    (authenticate (ext := Stub.externals) ∅ (Stub.request "Bearer noop-"))
  = Some (PStr []).
Proof.
  apply (noop_token_subject (ext := Stub.externals) ∅ (Stub.request "Bearer noop-") []).
  - reflexivity.
  - reflexivity.
Defined.

Lemma strict_mode_needs_verification_witness :
  exists (payload : pydict) (uid : pyval),
    jwt_decode (Externals := Stub.externals) (lit "signed.u1") (JWT_SECRET ∅) = Ok payload
    /\ first_truthy [ dict_get payload (lit "user_id"); dict_get payload (lit "sub");
                      dict_get payload (lit "id") ] = Some uid
    /\ verified_identity (ext := Stub.externals) Stub.payload_u1 (PStr (lit "u1"))
         PNone PNone !! lit "identity"
       = Some (PStr (py_str (ext := Stub.externals) uid)).
Proof.
  apply (strict_mode_needs_verification (ext := Stub.externals) ∅
           (Stub.request "Bearer signed.u1") (lit "signed.u1")).
  - split_and!; [ reflexivity | reflexivity | discriminate ].
  - reflexivity.
  - reflexivity.
Defined.

Lemma unauthenticated_only_anonymous_witness :
  exists s, anonymous_identity !! lit "identity" = Some (PStr s).
Proof.
  apply (unauthenticated_only_anonymous (ext := Stub.externals)
           {[ lit "ALLOW_ANONYMOUS" := lit "TRUE" ]} ∅ anonymous_identity).
  reflexivity.
Defined.

Lemma verified_subject_nonempty_witness :
  exists s,
    verified_identity (ext := Stub.externals) Stub.payload_u1 (PStr (lit "u1"))
      PNone PNone !! lit "identity" = Some (PStr s)
    /\ s <> [].
Proof.
  apply (verified_subject_nonempty (ext := Stub.externals) ∅
           (Stub.request "Bearer signed.u1") (lit "signed.u1")).
  - split_and!; [ reflexivity | reflexivity | discriminate ].
  - intros payload H. vm_compute in H. injection H as <-.
    split_and!; reflexivity.
  - reflexivity.
Defined.

(** X21. In development mode a request with a bearer header is never
    rejected as invalid or for a missing secret: if authentication fails,
    the token has expired (401 "Token expired") or an unexpected error
    occurred (500 "Authentication system error"). *)
Theorem development_accepts_invalid_tokens {ext : Externals} (env : environ)
    (headers : headers_t) (token : pystr) (e : exn) :
  development env = true ->
  bearer_token headers = Some token ->
  authenticate env headers = Raise e ->
  e = HTTPException 401 (lit "Token expired")
  \/ e = HTTPException 500 (lit "Authentication system error").
Proof.
  intros Hdev Hb. rewrite (authenticate_bearer_token _ _ _ Hb).
  unfold authenticate_token, secret_not_configured, verify_token. rewrite Hdev.
  destruct (is_dev_token token); [done|]. destruct (negb _); [done|].
  destruct (verify_body env token) as [r|e0]; [done|].
  destruct e0; cbn [verify_handlers]; rewrite ?Hdev; try done; intros [= <-]; auto.
Qed.

Lemma development_accepts_invalid_tokens_witness :
  HTTPException 401 (lit "Token expired") = HTTPException 401 (lit "Token expired")
  \/ HTTPException 401 (lit "Token expired")
     = HTTPException 500 (lit "Authentication system error").
Proof.
  apply (development_accepts_invalid_tokens (ext := Stub.externals)
           {[ lit "NODE_ENV" := lit "development" ]}
           (Stub.request "Bearer signed.expired") (lit "signed.expired")).
  - reflexivity.
  - reflexivity.
  - reflexivity.
Defined.

(** ** Further properties of the authorizer and of the mode switch *)

(** X11. When the owner-scoped [authorize] fails, the operation payload is
    left as it was, and the exception is [HTTPException] 401 "Invalid user
    identity" or [HTTPException] 500 "Authorization system error". *)
Theorem authorize_failure_keeps_payload (ctx : AuthContext) (value : pydict) (e : exn) :
  (authorize ctx value).1 = Raise e ->
  (authorize ctx value).2 = value
  /\ (e = HTTPException 401 (lit "Invalid user identity")
      \/ e = HTTPException 500 (lit "Authorization system error")).
Proof.
  destruct (decide (identity (user ctx) = [])) as [Hid|Hid].
  { rewrite authorize_no_identity by done. cbn. intros [= <-]. auto. }
  destruct (metadata_is_mapping value) eqn:Hm.
  - by rewrite authorize_mapping.
  - rewrite authorize_not_mapping by done. cbn. intros [= <-]. auto.
Qed.

Lemma authorize_failure_keeps_payload_witness :
  (authorize Stub.ctx_u1 {[ lit "metadata" := PStr (lit "m") ]}).2
  = {[ lit "metadata" := PStr (lit "m") ]}.
Proof.
  apply (authorize_failure_keeps_payload Stub.ctx_u1 {[ lit "metadata" := PStr (lit "m") ]}
           (HTTPException 500 (lit "Authorization system error"))).
  reflexivity.
Defined.

Lemma owner_overwrite (k : pystr) (a b : pyval) (m : pydict) :
  ({[ k := b ]} : pydict) ∪ ({[ k := a ]} ∪ m) = {[ k := b ]} ∪ m.
Proof. by rewrite <- !insert_union_singleton_l, insert_insert_eq. Qed.

(** X12. Authorizing a payload for one identity and then for a second,
    non-empty identity gives the same filter and the same payload as
    authorizing the original payload for the second identity: the owner
    stamp of the first call is overwritten and nothing else of it stays. *)
Theorem authorize_last_identity_wins (ctx ctx' : AuthContext) (value : pydict) :
  identity (user ctx') <> [] ->
  authorize ctx' (authorize ctx value).2 = authorize ctx' value.
Proof.
  intros Hid'.
  destruct (decide (identity (user ctx) = [])) as [Hid|Hid].
  { by rewrite (authorize_no_identity ctx). }
  destruct (metadata_is_mapping value) eqn:Hm.
  - rewrite (authorize_mapping ctx) by done. cbn [snd].
    rewrite !(authorize_mapping ctx') by
      (done || (unfold metadata_is_mapping; by rewrite lookup_insert_eq)).
    unfold metadata_entries at 1. rewrite lookup_insert_eq.
    by rewrite insert_insert_eq, owner_overwrite.
  - by rewrite (authorize_not_mapping ctx).
Qed.

Lemma authorize_last_identity_wins_witness :
  authorize {| user := {| identity := lit "u2" |} |}
    (authorize Stub.ctx_u1 {[ lit "metadata" := PDict ∅ ]}).2
  = authorize {| user := {| identity := lit "u2" |} |} {[ lit "metadata" := PDict ∅ ]}.
Proof.
  apply (authorize_last_identity_wins Stub.ctx_u1
           {| user := {| identity := lit "u2" |} |}).
  discriminate.
Defined.

(** X13. When [AUTH_TYPE] is not set, loading the module registers the noop
    handlers: every request, whatever its headers, is authenticated as
    "anonymous" with [is_authenticated] true, and authorization returns the
    empty filter and leaves the payload as it is. *)
Theorem default_mode_is_open {ext : Externals} (jwt_importable : bool) (env : environ) :
  env !! lit "AUTH_TYPE" = None ->
  load_auth jwt_importable env = Ok ModeNoop
  /\ (forall mode, load_auth jwt_importable env = Ok mode ->
      (forall headers,
         field (lit "identity") (registered_authenticate mode env headers)
         = Some (PStr (lit "anonymous"))
         /\ field (lit "is_authenticated") (registered_authenticate mode env headers)
            = Some (PBool true))
      /\ (forall ctx value, registered_authorize mode ctx value = (Ok ∅, value))).
Proof.
  intros Hunset.
  assert (load_auth jwt_importable env = Ok ModeNoop) as Hload.
  { unfold load_auth, AUTH_TYPE, getenv_or. rewrite Hunset. by vm_compute. }
  split; [done|]. intros mode. rewrite Hload. intros [= <-]. split.
  - intros headers. split; by vm_compute.
  - done.
Qed.

Lemma default_mode_is_open_witness :
  load_auth (ext := Stub.externals) true ∅ = Ok ModeNoop.
Proof.
  apply (default_mode_is_open (ext := Stub.externals) true ∅). reflexivity.
Defined.

(** X14. The custom handlers are registered only when [AUTH_TYPE] is set to
    a value whose lower-case form is "custom" and [import jwt] succeeds. *)
Theorem custom_mode_is_explicit {ext : Externals} (jwt_importable : bool) (env : environ) :
  load_auth jwt_importable env = Ok ModeCustom ->
  jwt_importable = true
  /\ exists s, env !! lit "AUTH_TYPE" = Some s /\ py_lower s = lit "custom".
Proof.
  unfold load_auth, AUTH_TYPE, getenv_or.
  destruct (env !! lit "AUTH_TYPE") as [s|] eqn:Es; simpl.
  - case_bool_decide; [done|]. case_bool_decide as Hc; [|done].
    destruct jwt_importable; [|done]. eauto.
  - by vm_compute.
Qed.

Lemma custom_mode_is_explicit_witness :
  exists s, ({[ lit "AUTH_TYPE" := lit "Custom" ]} : environ) !! lit "AUTH_TYPE" = Some s
            /\ py_lower (ext := Stub.externals) s = lit "custom".
Proof.
  apply (custom_mode_is_explicit (ext := Stub.externals) true
           {[ lit "AUTH_TYPE" := lit "Custom" ]}).
  reflexivity.
Defined.


(** ** Properties of the Langfuse integration *)

Module LangfuseFacts.
Import Langfuse.

(** Unfolds one construction and splits it into its paths. *)
Ltac init_cases :=
  unfold __init__, _initialize, ensure_client, ensure_handler, disable;
  repeat case_match; simplify_eq/=.

Section Facts.
Context {ext : Externals} {Client Handler : Type}.
Implicit Types (lib : library Client Handler) (g : module_state Client Handler)
  (env : environ).

(** X15. After the construction of a [LangfuseEnhanced] instance: if it is
    enabled, its client and its handler are set and are the module-level
    client and handler, and [get_callbacks] returns that handler alone; if
    it is not enabled, its client and handler are [None] and [get_callbacks]
    returns the empty list. *)
Theorem init_invariant lib env g :
  (enabled (__init__ lib env g).1 = true ->
   exists c h,
     client (__init__ lib env g).1 = Some c
     /\ handler (__init__ lib env g).1 = Some h
     /\ langfuse_client (__init__ lib env g).2 = Some c
     /\ langfuse_handler (__init__ lib env g).2 = Some h
     /\ get_callbacks (__init__ lib env g).1 None = [h])
  /\ (enabled (__init__ lib env g).1 = false ->
      client (__init__ lib env g).1 = None
      /\ handler (__init__ lib env g).1 = None
      /\ forall metadata, get_callbacks (__init__ lib env g).1 metadata = []).
Proof.
  destruct (__init__ lib env g) as [i g'] eqn:E. cbn [fst snd].
  revert E. unfold get_callbacks. init_cases; intros; simplify_eq/=.
  all: split; intros; simplify_eq/=; eauto 10; congruence.
Qed.

(** X16. A constructed instance is enabled only if the logging flag of the
    module is on, the langfuse package can be imported, [LANGFUSE_PUBLIC_KEY]
    and [LANGFUSE_SECRET_KEY] are set to non-empty values, a client that had
    to be created passed its [auth_check], and a handler that had to be
    created could be. *)
Theorem enabled_requires lib env g :
  enabled (__init__ lib env g).1 = true ->
  LANGFUSE_LOGGING_ENABLED g = true
  /\ import_langfuse lib = Ok tt
  /\ (exists v, env !! lit "LANGFUSE_PUBLIC_KEY" = Some v /\ v <> [])
  /\ (exists v, env !! lit "LANGFUSE_SECRET_KEY" = Some v /\ v <> [])
  /\ (langfuse_client g = None ->
      exists c, get_client lib = Ok c /\ auth_check lib c = Ok true)
  /\ (langfuse_handler g = None -> exists h, CallbackHandler lib = Ok h).
Proof.
  assert (forall var, unset env var = false -> exists v, env !! var = Some v /\ v <> [])
    as Hset.
  { intros var. unfold unset. destruct (env !! var) as [[|??]|]; try done. eauto. }
  assert (missing_vars env = [] ->
          unset env (lit "LANGFUSE_PUBLIC_KEY") = false
          /\ unset env (lit "LANGFUSE_SECRET_KEY") = false) as Hmissing.
  { unfold missing_vars, required_vars. cbn [List.filter].
    destruct (unset env (lit "LANGFUSE_PUBLIC_KEY")),
      (unset env (lit "LANGFUSE_SECRET_KEY")); done. }
  unfold __init__, _initialize.
  destruct (LANGFUSE_LOGGING_ENABLED g) eqn:Hl; cbn [enabled]; [|done].
  destruct (import_langfuse lib) as [[]|] eqn:Hi; [|done].
  destruct (missing_vars env) eqn:Hm; [|done].
  destruct (Hmissing eq_refl) as [Hp Hs].
  unfold ensure_client, ensure_handler, disable.
  intros H. split_and!; [done | done | by apply Hset | by apply Hset | |].
  - intros Hc. rewrite Hc in H. repeat case_match; simplify_eq/=; eauto.
  - intros Hh. repeat case_match; simplify_eq/=; eauto.
Qed.

(** X17. [get_enhanced_langfuse] builds the instance once: a second call,
    whatever the environment and the state of the langfuse package then,
    returns the same instance and changes no module variable. *)
Theorem singleton_instance lib lib' env env' g :
  get_enhanced_langfuse lib' env' (get_enhanced_langfuse lib env g).2
  = get_enhanced_langfuse lib env g.
Proof.
  unfold get_enhanced_langfuse.
  destruct (enhanced_instance g) as [i|] eqn:Ei; cbn [snd].
  - by rewrite Ei.
  - by destruct (__init__ lib env g) as [i g1].
Qed.

(** X18. A construction never replaces a module-level client or handler
    that is already set, and an enabled instance uses them; it changes
    neither the module's instance variable nor the logging flag. *)
Theorem module_objects_are_kept lib env g :
  (forall c, langfuse_client g = Some c ->
     langfuse_client (__init__ lib env g).2 = Some c
     /\ (enabled (__init__ lib env g).1 = true ->
         client (__init__ lib env g).1 = Some c))
  /\ (forall h, langfuse_handler g = Some h ->
      langfuse_handler (__init__ lib env g).2 = Some h
      /\ (enabled (__init__ lib env g).1 = true ->
          handler (__init__ lib env g).1 = Some h))
  /\ enhanced_instance (__init__ lib env g).2 = enhanced_instance g
  /\ LANGFUSE_LOGGING_ENABLED (__init__ lib env g).2 = LANGFUSE_LOGGING_ENABLED g.
Proof.
  destruct (__init__ lib env g) as [i g'] eqn:E. cbn [fst snd].
  revert E. init_cases; intros; simplify_eq/=.
  all: split_and!; intros; simplify_eq/=; try split; intros; simplify_eq/=;
    eauto; congruence.
Qed.

(** X19. When a construction creates the client and its [auth_check] fails
    or raises, the instance is disabled but the module-level client stays
    set; a later construction then skips [get_client] and [auth_check] and,
    if the handler is available, is enabled with that client. *)
Theorem failed_check_leaves_client lib lib' env env' g (c : Client) :
  LANGFUSE_LOGGING_ENABLED g = true ->
  import_langfuse lib = Ok tt ->
  missing_vars env = [] ->
  langfuse_client g = None ->
  get_client lib = Ok c ->
  auth_check lib c <> Ok true ->
  import_langfuse lib' = Ok tt ->
  missing_vars env' = [] ->
  (langfuse_handler g = None -> exists h, CallbackHandler lib' = Ok h) ->
  enabled (__init__ lib env g).1 = false
  /\ langfuse_client (__init__ lib env g).2 = Some c
  /\ enabled (__init__ lib' env' (__init__ lib env g).2).1 = true
  /\ client (__init__ lib' env' (__init__ lib env g).2).1 = Some c.
Proof.
  intros Hl Hi Hm Hc Hg Ha Hi' Hm' Hh.
  assert (__init__ lib env g
          = ({| enabled := false; client := None; handler := None |},
             {| LANGFUSE_LOGGING_ENABLED := true;
                langfuse_client := Some c;
                langfuse_handler := langfuse_handler g;
                enhanced_instance := enhanced_instance g |})) as ->.
  { unfold __init__, _initialize, ensure_client, disable.
    rewrite Hl. cbn [enabled]. rewrite Hi, Hm, Hc, Hg.
    destruct (auth_check lib c) as [[|]|]; done. }
  cbn [fst snd]. split_and!; [done | done | |].
  all: unfold __init__; cbn [LANGFUSE_LOGGING_ENABLED enabled].
  all: unfold _initialize; rewrite Hi', Hm'.
  all: unfold ensure_client, ensure_handler;
    cbn [langfuse_client langfuse_handler negb].
  all: destruct (langfuse_handler g) as [h|] eqn:Eh; [done|].
  all: destruct (Hh eq_refl) as [h ->]; done.
Qed.

(** X20. On a module loaded with [LANGFUSE_LOGGING] unset,
    [get_tracing_callbacks] returns the empty list without creating a client
    or a handler, and so does every later call, whatever the environment has
    become. *)
Theorem tracing_off_by_default lib env (metadata : option pydict) :
  env !! lit "LANGFUSE_LOGGING" = None ->
  (get_tracing_callbacks lib env (load env) metadata).1 = []
  /\ langfuse_client (get_tracing_callbacks lib env (load env) metadata).2 = None
  /\ langfuse_handler (get_tracing_callbacks lib env (load env) metadata).2 = None
  /\ forall lib' env' metadata',
       (get_tracing_callbacks lib' env'
          (get_tracing_callbacks lib env (load env) metadata).2 metadata').1 = [].
Proof.
  intros Hunset.
  assert (LANGFUSE_LOGGING_ENABLED (load (Client := Client) (Handler := Handler) env)
          = false) as Hoff.
  { unfold load, getenv_or. rewrite Hunset. by vm_compute. }
  unfold get_tracing_callbacks, get_enhanced_langfuse, __init__.
  rewrite Hoff. done.
Qed.
End Facts.
End LangfuseFacts.

Lemma init_invariant_witness :
  exists c h,
    Langfuse.client
      (Langfuse.__init__ (sample_library true) sample_environ
         (Langfuse.load (ext := Stub.externals) sample_environ)).1 = Some c
    /\ Langfuse.handler
         (Langfuse.__init__ (sample_library true) sample_environ
            (Langfuse.load (ext := Stub.externals) sample_environ)).1 = Some h.
Proof.
  destruct (LangfuseFacts.init_invariant (sample_library true)
              sample_environ (Langfuse.load (ext := Stub.externals) sample_environ)) as [H _].
  destruct H as (c & h & Hc & Hh & _); [ reflexivity | ].
  exists c, h. split; [ exact Hc | exact Hh ].
Defined.

Lemma enabled_requires_witness :
  Langfuse.LANGFUSE_LOGGING_ENABLED
    (Langfuse.load (ext := Stub.externals) (Client := nat) (Handler := nat)
       sample_environ) = true.
Proof.
  apply (LangfuseFacts.enabled_requires (sample_library true)
           sample_environ (Langfuse.load (ext := Stub.externals) sample_environ)).
  reflexivity.
Defined.

Lemma module_objects_are_kept_witness :
  Langfuse.langfuse_client
    (Langfuse.__init__ (sample_library true) sample_environ
       (Langfuse.__init__ (sample_library false) sample_environ
          (Langfuse.load (ext := Stub.externals) sample_environ)).2).2 = Some 1%nat.
Proof.
  destruct (LangfuseFacts.module_objects_are_kept
              (sample_library true) sample_environ
              (Langfuse.__init__ (sample_library false) sample_environ
                 (Langfuse.load (ext := Stub.externals) sample_environ)).2) as [H _].
  destruct (H 1%nat) as [H1 _]; [ reflexivity | exact H1 ].
Defined.

Lemma failed_check_leaves_client_witness :
  Langfuse.enabled
    (Langfuse.__init__ (sample_library false) sample_environ
       (Langfuse.load (ext := Stub.externals) sample_environ)).1 = false
  /\ Langfuse.enabled
       (Langfuse.__init__ (sample_library false) sample_environ
          (Langfuse.__init__ (sample_library false) sample_environ
             (Langfuse.load (ext := Stub.externals) sample_environ)).2).1 = true.
Proof.
  destruct (LangfuseFacts.failed_check_leaves_client
              (sample_library false) (sample_library false) sample_environ sample_environ
              (Langfuse.load (ext := Stub.externals) sample_environ) 1%nat) as (H1 & _ & H2 & _).
  - reflexivity.
  - reflexivity.
  - reflexivity.
  - reflexivity.
  - reflexivity.
  - discriminate.
  - reflexivity.
  - reflexivity.
  - intros _. exists 2%nat. reflexivity.
  - split; [ exact H1 | exact H2 ].
Defined.

Lemma tracing_off_by_default_witness :
  (Langfuse.get_tracing_callbacks (sample_library true) ∅
     (Langfuse.load (ext := Stub.externals) ∅) None).1 = [].
Proof.
  apply (LangfuseFacts.tracing_off_by_default (ext := Stub.externals)
           (sample_library true) ∅ None).
  reflexivity.
Defined.
